(** * Belle: style composition and interaction state of [Button] and [Placeholder]

    A shallow embedding of the Button component and of the Placeholder
    component ([src/components/Placeholder.js]).  JavaScript objects are
    finite maps from property names to values, object spread is a
    right-biased union, the component instance is a record, and the calls a
    method makes on its collaborators ([injectStyles], [removeStyle],
    [setState], [forceUpdate], the caller's callbacks) are logged in order
    by a small writer/state monad. *)

From Stdlib Require Import ZArith Ascii String.
From stdpp Require Import gmap strings list fin_maps pretty.

Open Scope string_scope.
Open Scope list_scope.

(** ** JavaScript values *)

(** Values of style properties: numbers ([outline: 0]) and strings
    ([color: 'red']). *)
Inductive sval :=
  | SNum (n : Z)
  | SStr (s : string).

(** A style object: a flat mapping of style-property names to values. *)
Abbreviation Style := (gmap string sval).

(** Values found in a props object.  [JFun] is a caller-supplied function,
    known by a name; [JBound] is a method of the component bound to the
    instance ([::this._onFocus]). *)
Inductive jsval :=
  | JUndefined
  | JNull
  | JBool (b : bool)
  | JNum (n : Z)
  | JStr (s : string)
  | JObj (o : Style)
  | JFun (f : string)
  | JBound (method : string).

(** A props object (also: the attributes handed to a native element). *)
Abbreviation Props := (gmap string jsval).

Global Instance sval_eq_dec : EqDecision sval.
Proof. solve_decision. Defined.

Global Instance jsval_eq_dec : EqDecision jsval.
Proof. solve_decision. Defined.

(** [v ? _ : _], [if (v)], [!v], [v && _]: JavaScript truthiness. *)
Definition truthy (v : jsval) : bool :=
  match v with
  | JUndefined | JNull => false
  | JBool b => b
  | JNum n => negb (n =? 0)%Z
  | JStr s => negb (String.eqb s EmptyString)
  | JObj _ | JFun _ | JBound _ => true
  end.

(** [o.k]: a missing property reads as [undefined]. *)
Definition prop (o : Props) (k : string) : jsval := default JUndefined (o !! k).

(** The own enumerable properties copied by [...v] inside an object literal:
    those of an object; the indexed characters of a string; none for
    [undefined], [null], booleans, numbers and functions. *)
Definition chars (s : string) : list (string * sval) :=
  imap (λ i c, (pretty i, SStr (String c EmptyString))) (String.list_ascii_of_string s).

Definition ownProps (v : jsval) : Style :=
  match v with
  | JObj o => o
  | JStr s => list_to_map (chars s)
  | _ => ∅
  end.

(** [{ ...l1, ..., ...ln }]: the properties are copied layer by layer from
    left to right into a fresh object, each copy overwriting what is there. *)
Definition objectSpread (layers : list Style) : Style :=
  foldl (λ acc layer, layer ∪ acc) ∅ layers.

(** The same for the attributes of a JSX element. *)
Definition propsSpread (layers : list Props) : Props :=
  foldl (λ acc layer, layer ∪ acc) ∅ layers.

(** ** Helpers of [utils/helpers] *)

(** Modelled from the spec: [omit] of [utils/helpers], whose source is not
    part of the sources at hand; [omit(obj, keys) -> obj'] is the generic
    object-subset utility: [obj'] is [obj] without the listed keys. *)
Definition omit (o : Props) (keys : list string) : Props :=
  foldr delete o keys.

(** ** Events *)

Record Touch := { identifier : Z }.

(** The synthetic events, with what the handlers read of them: the
    [button] of a mouse event and the [touches] of a touch event.  A focus
    event is only handed on to the caller. *)
Record MouseEvent := { button : Z }.
Record TouchEvent := { touches : list Touch }.
Record FocusEvent := { relatedTarget : jsval }.

Inductive Event :=
  | EMouse (e : MouseEvent)
  | ETouch (e : TouchEvent)
  | EFocus (e : FocusEvent).

(** ** The style-injection service, as the components see it *)

Module Rule.
(** One entry of the array given to [injectStyles]; [disabled] is absent
    from three of the four entries the Button builds. *)
Record t := {
  id : jsval;
  style : Style;
  pseudoClass : string;
  disabled : option bool;
}.
End Rule.

(** ** Collaborator calls *)

(** What a method does to the world outside the instance, in call order.
    [CallProp name f e] is the call [this.props.name(e)], [f] being the
    value found under [name]. *)
Inductive Effect :=
  | InjectStyles (styles : list Rule.t)
  | RemoveStyle (id : jsval)
  | SetState (field : string)
  | ForceUpdate
  | CallProp (name : string) (f : jsval) (e : Event).

Global Instance Touch_eq_dec : EqDecision Touch.
Proof. solve_decision. Defined.
Global Instance MouseEvent_eq_dec : EqDecision MouseEvent.
Proof. solve_decision. Defined.
Global Instance TouchEvent_eq_dec : EqDecision TouchEvent.
Proof. solve_decision. Defined.
Global Instance FocusEvent_eq_dec : EqDecision FocusEvent.
Proof. solve_decision. Defined.
Global Instance Event_eq_dec : EqDecision Event.
Proof. solve_decision. Defined.
Global Instance Rule_eq_dec : EqDecision Rule.t.
Proof. solve_decision. Defined.
Global Instance Effect_eq_dec : EqDecision Effect.
Proof. solve_decision. Defined.

(** ** Methods: state passing with a log of collaborator calls *)

(** A method of an instance of type [S] returning an [A]: it reads and
    updates the instance and appends to the log. *)
Definition Method (S A : Type) : Type := S → A * S * list Effect.

Definition ret {S A} (a : A) : Method S A := λ this, (a, this, []).

Definition bind {S A B} (m : Method S A) (k : A → Method S B) : Method S B :=
  λ this,
    let '(a, this1, log1) := m this in
    let '(b, this2, log2) := k a this1 in
    (b, this2, log1 ++ log2).

Definition self {S} : Method S S := λ this, (this, this, []).
Definition assign {S} (f : S → S) : Method S unit := λ this, (tt, f this, []).
Definition emit {S} (e : Effect) : Method S unit := λ this, (tt, this, [e]).

(** [if (c) { m }] *)
Definition when {S} (c : bool) (m : Method S unit) : Method S unit :=
  if c then m else ret tt.

Declare Scope method_scope.
Delimit Scope method_scope with method.
Notation "'let*' x := c1 'in' c2" := (bind c1 (λ x, c2))
  (at level 10, x name, c1 at level 100, c2 at level 200) : method_scope.
Notation "c1 ;; c2" := (bind c1 (λ _, c2))
  (at level 100, c2 at level 200, right associativity) : method_scope.

(** The instance after the call, and the log of the call. *)
Definition after {S A} (m : Method S A) (this : S) : S := (m this).1.2.
Definition log {S A} (m : Method S A) (this : S) : list Effect := (m this).2.

(** ** Design-system tables *)

Module ButtonStyle.
(** Modelled from the spec: the default style table [style/button] is
    plain data, one style object per state and variant; its source is not
    part of the sources at hand, so the table is a parameter of the
    component. *)
Record t := {
  style : Style;
  primaryStyle : Style;
  hoverStyle : Style;
  primaryHoverStyle : Style;
  focusStyle : Style;
  primaryFocusStyle : Style;
  activeStyle : Style;
  primaryActiveStyle : Style;
  disabledStyle : Style;
  primaryDisabledStyle : Style;
  disabledHoverStyle : Style;
  primaryDisabledHoverStyle : Style;
}.
End ButtonStyle.

Module ButtonConfig.
(** Modelled from the spec: the shared defaults [config/button], from
    which [preventFocusStyleForTouchAndClick] is taken when a Button does
    not set it; a parameter of the component. *)
Record t := { preventFocusStyleForTouchAndClick : jsval }.
End ButtonConfig.

Module PlaceholderStyle.
(** Modelled from the spec: the default style table [style/placeholder];
    a parameter of the component. *)
Record t := {
  style : Style;
  disabledStyle : Style;
}.
End PlaceholderStyle.

(** What [render] returns: the native element, the attributes of its JSX
    tag after spreading, and its children. *)
Record Element := {
  tag : string;
  attributes : Props;
  children : jsval;
}.

(** [rootNodeID.replace(/\./g, '-')] *)
Fixpoint replaceDots (s : string) : string :=
  match s with
  | EmptyString => EmptyString
  | String c rest =>
      String (if Ascii.eqb c "."%char then "-"%char else c) (replaceDots rest)
  end.

(** ** Button *)

Module Button.

(** The instance: [this.props], the instance fields and [this.state]. *)
Record t := {
  props : Props;
  preventFocusStyleForTouchAndClick : jsval;
  childProps : Props;          (* this.state.childProps *)
  active : bool;               (* this.state.active *)
  focused : bool;
  mouseDownOnButton : bool;
  styleId : jsval;
}.

Definition set_props (v : Props) (this : t) : t :=
  {| props := v;
     preventFocusStyleForTouchAndClick := preventFocusStyleForTouchAndClick this;
     childProps := childProps this; active := active this;
     focused := focused this; mouseDownOnButton := mouseDownOnButton this;
     styleId := styleId this |}.

Definition set_preventFocusStyleForTouchAndClick (v : jsval) (this : t) : t :=
  {| props := props this;
     preventFocusStyleForTouchAndClick := v;
     childProps := childProps this; active := active this;
     focused := focused this; mouseDownOnButton := mouseDownOnButton this;
     styleId := styleId this |}.

Definition set_childProps (v : Props) (this : t) : t :=
  {| props := props this;
     preventFocusStyleForTouchAndClick := preventFocusStyleForTouchAndClick this;
     childProps := v; active := active this;
     focused := focused this; mouseDownOnButton := mouseDownOnButton this;
     styleId := styleId this |}.

Definition set_active (v : bool) (this : t) : t :=
  {| props := props this;
     preventFocusStyleForTouchAndClick := preventFocusStyleForTouchAndClick this;
     childProps := childProps this; active := v;
     focused := focused this; mouseDownOnButton := mouseDownOnButton this;
     styleId := styleId this |}.

Definition set_focused (v : bool) (this : t) : t :=
  {| props := props this;
     preventFocusStyleForTouchAndClick := preventFocusStyleForTouchAndClick this;
     childProps := childProps this; active := active this;
     focused := v; mouseDownOnButton := mouseDownOnButton this;
     styleId := styleId this |}.

Definition set_mouseDownOnButton (v : bool) (this : t) : t :=
  {| props := props this;
     preventFocusStyleForTouchAndClick := preventFocusStyleForTouchAndClick this;
     childProps := childProps this; active := active this;
     focused := focused this; mouseDownOnButton := v;
     styleId := styleId this |}.

Definition set_styleId (v : jsval) (this : t) : t :=
  {| props := props this;
     preventFocusStyleForTouchAndClick := preventFocusStyleForTouchAndClick this;
     childProps := childProps this; active := active this;
     focused := focused this; mouseDownOnButton := mouseDownOnButton this;
     styleId := v |}.

(** [this.setState({ childProps })] and [this.setState({ active })]: the
    new value is in [this.state] by the time of the next render, which the
    call schedules. *)
Definition setState_childProps (v : Props) : Method t unit :=
  (assign (set_childProps v) ;; emit (SetState "childProps"))%method.

Definition setState_active (v : bool) : Method t unit :=
  (assign (set_active v) ;; emit (SetState "active"))%method.

(** The keys that [sanitizeChildProps] hands to [omit]. *)
Definition omitted : list string :=
  [ "className"; "style"; "hoverStyle"; "focusStyle"; "activeStyle";
    "disabledStyle"; "disabledHoverStyle"; "primary"; "onTouchStart";
    "onTouchEnd"; "onTouchCancel"; "onMouseDown"; "onFocus"; "onBlur" ].

Definition sanitizeChildProps (properties : Props) : Props :=
  omit properties omitted.

Definition defaultProps : Props :=
  list_to_map [ ("primary", JBool false); ("disabled", JBool false);
                ("type", JStr "button") ].

(** The events of the native element and the attribute each one fires. *)
Inductive DomEvent :=
  | TouchStart (e : TouchEvent)
  | TouchEnd (e : TouchEvent)
  | TouchCancel (e : TouchEvent)
  | Focus (e : FocusEvent)
  | Blur (e : FocusEvent)
  | MouseDown (e : MouseEvent).

Section Component.
Context (style : ButtonStyle.t) (config : ButtonConfig.t).
(** [has] of [utils/helpers] and [unionClassNames] of
    [utils/union-class-names], whose sources are not part of the sources at
    hand: parameters of the component. *)
Context (has : Props → string → bool).
Context (unionClassNames : jsval → jsval → jsval).

Definition updatePseudoClassStyle
    (styleId : jsval) (properties : Props)
    (preventFocusStyleForTouchAndClick : jsval) : Method t unit :=
  let baseHoverStyle :=
    if truthy (prop properties "primary")
    then ButtonStyle.primaryHoverStyle style else ButtonStyle.hoverStyle style in
  let baseActiveStyle :=
    if truthy (prop properties "primary")
    then ButtonStyle.primaryActiveStyle style else ButtonStyle.activeStyle style in
  let baseDisabledHoverStyle :=
    if truthy (prop properties "primary")
    then ButtonStyle.primaryDisabledHoverStyle style
    else ButtonStyle.disabledHoverStyle style in
  let hoverStyle :=
    objectSpread [baseHoverStyle; ownProps (prop properties "hoverStyle")] in
  let activeStyle :=
    objectSpread [baseActiveStyle; ownProps (prop properties "activeStyle")] in
  let disabledHoverStyle :=
    objectSpread [baseDisabledHoverStyle;
                  ownProps (prop properties "disabledHoverStyle")] in
  let focusStyle :=
    if truthy preventFocusStyleForTouchAndClick then
      {[ "outline" := SNum 0 ]}
    else
      let baseFocusStyle :=
        if truthy (prop properties "primary")
        then ButtonStyle.primaryFocusStyle style else ButtonStyle.focusStyle style in
      objectSpread [baseFocusStyle; ownProps (prop properties "focusStyle")] in
  let styles :=
    [ {| Rule.id := styleId; Rule.style := hoverStyle;
         Rule.pseudoClass := "hover"; Rule.disabled := None |};
      {| Rule.id := styleId; Rule.style := activeStyle;
         Rule.pseudoClass := "active"; Rule.disabled := None |};
      {| Rule.id := styleId; Rule.style := disabledHoverStyle;
         Rule.pseudoClass := "hover"; Rule.disabled := Some true |};
      {| Rule.id := styleId; Rule.style := focusStyle;
         Rule.pseudoClass := "focus"; Rule.disabled := None |} ] in
  emit (InjectStyles styles).

Definition constructor (properties : Props) : t :=
  {| props := properties;
     preventFocusStyleForTouchAndClick :=
       if has properties "preventFocusStyleForTouchAndClick"
       then prop properties "preventFocusStyleForTouchAndClick"
       else ButtonConfig.preventFocusStyleForTouchAndClick config;
     childProps := sanitizeChildProps properties;
     active := false;
     focused := false;
     mouseDownOnButton := false;
     styleId := JUndefined |}.

(** [rootNodeID] is React's [this._reactInternalInstance._rootNodeID]. *)
Definition componentWillMount (rootNodeID : string) : Method t unit :=
  (let id := replaceDots rootNodeID in
   assign (set_styleId (JStr ("style-id" +:+ id))) ;;
   let* this := self in
   updatePseudoClassStyle (styleId this) (props this)
     (preventFocusStyleForTouchAndClick this))%method.

Definition componentWillReceiveProps (properties : Props) : Method t unit :=
  (assign (set_preventFocusStyleForTouchAndClick
             (if has properties "preventFocusStyleForTouchAndClick"
              then prop properties "preventFocusStyleForTouchAndClick"
              else ButtonConfig.preventFocusStyleForTouchAndClick config)) ;;
   setState_childProps (sanitizeChildProps properties) ;;
   let* this := self in
   emit (RemoveStyle (styleId this)) ;;
   updatePseudoClassStyle (styleId this) properties
     (preventFocusStyleForTouchAndClick this))%method.

Definition componentDidUpdate : Method t unit :=
  (assign (set_focused false) ;;
   assign (set_mouseDownOnButton false))%method.

Definition componentWillUnmount : Method t unit :=
  (let* this := self in
   emit (RemoveStyle (styleId this)))%method.

Definition _onFocus (event : FocusEvent) : Method t unit :=
  (assign (set_focused true) ;;
   emit ForceUpdate ;;
   let* this := self in
   when (truthy (prop (props this) "onFocus"))
     (emit (CallProp "onFocus" (prop (props this) "onFocus") (EFocus event))))%method.

Definition _onBlur (event : FocusEvent) : Method t unit :=
  (assign (set_focused false) ;;
   setState_active false ;;
   let* this := self in
   when (truthy (prop (props this) "onBlur"))
     (emit (CallProp "onBlur" (prop (props this) "onBlur") (EFocus event))))%method.

Definition _onMouseDown (event : MouseEvent) : Method t unit :=
  (let* this := self in
   when ((button event =? 0)%Z && negb (truthy (prop (props this) "disabled")))
     (assign (set_mouseDownOnButton true)) ;;
   when (truthy (prop (props this) "onMouseDown"))
     (emit (CallProp "onMouseDown" (prop (props this) "onMouseDown")
              (EMouse event))))%method.

Definition _onTouchStart (event : TouchEvent) : Method t unit :=
  (let* this := self in
   when (negb (truthy (prop (props this) "disabled"))
         && (length (touches event) =? 1)%nat)
     (setState_active true) ;;
   when (truthy (prop (props this) "onTouchStart"))
     (emit (CallProp "onTouchStart" (prop (props this) "onTouchStart")
              (ETouch event))))%method.

Definition _onTouchEnd (event : TouchEvent) : Method t unit :=
  (setState_active false ;;
   let* this := self in
   when (truthy (prop (props this) "onTouchEnd"))
     (emit (CallProp "onTouchEnd" (prop (props this) "onTouchEnd")
              (ETouch event))))%method.

Definition _onTouchCancel (event : TouchEvent) : Method t unit :=
  (setState_active false ;;
   let* this := self in
   when (truthy (prop (props this) "onTouchEnd"))
     (emit (CallProp "onTouchEnd" (prop (props this) "onTouchEnd")
              (ETouch event))))%method.

(** The inline style computed at the start of [render]. *)
Definition buttonStyle (this : t) : Style :=
  let baseStyle :=
    if truthy (prop (props this) "primary")
    then ButtonStyle.primaryStyle style else ButtonStyle.style style in
  let baseButtonStyle :=
    objectSpread [baseStyle; ownProps (prop (props this) "style")] in
  if truthy (prop (props this) "disabled") then
    if truthy (prop (props this) "primary") then
      objectSpread [baseButtonStyle; ButtonStyle.primaryDisabledStyle style;
                    ownProps (prop (props this) "disabledStyle")]
    else
      objectSpread [baseButtonStyle; ButtonStyle.disabledStyle style;
                    ownProps (prop (props this) "disabledStyle")]
  else
    if active this then
      let baseActiveStyle :=
        if truthy (prop (props this) "primary")
        then ButtonStyle.primaryActiveStyle style
        else ButtonStyle.activeStyle style in
      objectSpread [baseButtonStyle; baseActiveStyle;
                    ownProps (prop (props this) "activeStyle")]
    else if focused this
            && negb (active this)
            && negb (mouseDownOnButton this)
            && truthy (preventFocusStyleForTouchAndClick this) then
      let baseFocusStyle :=
        if truthy (prop (props this) "primary")
        then ButtonStyle.primaryFocusStyle style
        else ButtonStyle.focusStyle style in
      objectSpread [baseButtonStyle; baseFocusStyle;
                    ownProps (prop (props this) "focusStyle")]
    else
      baseButtonStyle.

(** Which block of the [if]/[else] chain of [render] assigns
    [buttonStyle]: the same conditions, in the same order. *)
Inductive Branch :=
  | DisabledBranch
  | ActiveBranch
  | FocusBranch
  | PlainBranch.

Definition branch (this : t) : Branch :=
  if truthy (prop (props this) "disabled") then DisabledBranch
  else
    if active this then ActiveBranch
    else if focused this
            && negb (active this)
            && negb (mouseDownOnButton this)
            && truthy (preventFocusStyleForTouchAndClick this) then FocusBranch
    else PlainBranch.

(** The attributes written out in the JSX tag, before [childProps] is
    spread over them. *)
Definition ownAttributes (this : t) : Props :=
  list_to_map
    [ ("style", JObj (buttonStyle this));
      ("className", unionClassNames (prop (props this) "className") (styleId this));
      ("onTouchStart", JBound "_onTouchStart");
      ("onTouchEnd", JBound "_onTouchEnd");
      ("onTouchCancel", JBound "_onTouchCancel");
      ("onFocus", JBound "_onFocus");
      ("onBlur", JBound "_onBlur");
      ("onMouseDown", JBound "_onMouseDown") ].

Definition render (this : t) : Element :=
  {| tag := "button";
     attributes := propsSpread [ownAttributes this; childProps this];
     children := prop (props this) "children" |}.

(** The method bound in [render] to the attribute that an event fires. *)
Definition dispatch (ev : DomEvent) : Method t unit :=
  match ev with
  | TouchStart e => _onTouchStart e
  | TouchEnd e => _onTouchEnd e
  | TouchCancel e => _onTouchCancel e
  | Focus e => _onFocus e
  | Blur e => _onBlur e
  | MouseDown e => _onMouseDown e
  end.

(** *** The rendering library's side of the lifecycle

    Modelled from the spec: the rendering library is an external
    collaborator which "re-invokes a component's render function on
    state/prop changes" and calls the lifecycle hooks; a handler runs to
    its end before the render it scheduled, and the update hook runs
    after the render is committed.  The first render is followed by the
    mount hook (none is defined here), not by [componentDidUpdate]. *)

Definition schedulesRender (e : Effect) : bool :=
  match e with
  | SetState _ | ForceUpdate => true
  | _ => false
  end.

(** What the library does to a mounted instance. *)
Inductive Action :=
  | Receive (properties : Props)     (* the parent renders it with new props *)
  | Dom (ev : DomEvent).             (* the native element fires an event *)

Definition isFocus (a : Action) : bool :=
  match a with
  | Dom (Focus _) => true
  | _ => false
  end.

(** A render: the instance as [render] saw it, and the element. *)
Record Rendering := {
  seen : t;
  element : Element;
}.

(** Modelled from the spec: one render-and-commit cycle of a mounted
    instance, [render] and then the update hook. *)
Definition renderAndCommit (this : t) : t * Rendering :=
  (after componentDidUpdate this, {| seen := this; element := render this |}).

(** Modelled from the spec: mounting, which constructs the instance, calls
    the mount hook and renders. *)
Definition mount (rootNodeID : string) (properties : Props)
    : t * list Effect * Rendering :=
  let this := constructor properties in
  let '(_, this, effects) := componentWillMount rootNodeID this in
  (this, effects, {| seen := this; element := render this |}).

(** Modelled from the spec: new props go to the props hook, become
    [this.props] and are rendered; an event goes to its handler, and a cycle
    follows when the handler asked for one. *)
Definition step (a : Action) (this : t) : t * list Effect * option Rendering :=
  match a with
  | Receive properties =>
      let '(_, this, effects) := componentWillReceiveProps properties this in
      let '(this, r) := renderAndCommit (set_props properties this) in
      (this, effects, Some r)
  | Dom ev =>
      let '(_, this, effects) := dispatch ev this in
      if existsb schedulesRender effects then
        let '(this, r) := renderAndCommit this in
        (this, effects, Some r)
      else (this, effects, None)
  end.

(** Modelled from the spec: unmounting calls the unmount hook. *)
Definition unmount (this : t) : list Effect := log componentWillUnmount this.

(** A run of actions: the final instance, the whole log, and the renders
    in order. *)
Fixpoint run (actions : list Action) (this : t)
    : t * list Effect * list Rendering :=
  match actions with
  | [] => (this, [], [])
  | a :: rest =>
      let '(this1, effects1, r) := step a this in
      let '(this2, effects2, rs) := run rest this1 in
      (this2, effects1 ++ effects2, option_list r ++ rs)
  end.

End Component.
End Button.

(** ** Placeholder *)

Module Placeholder.

Record t := {
  props : Props;
  childProps : Props;          (* this.state.childProps *)
}.

Definition set_props (v : Props) (this : t) : t :=
  {| props := v; childProps := childProps this |}.

Definition set_childProps (v : Props) (this : t) : t :=
  {| props := props this; childProps := v |}.

Definition setState_childProps (v : Props) : Method t unit :=
  (assign (set_childProps v) ;; emit (SetState "childProps"))%method.

Definition omitted : list string := [ "style"; "disabledStyle"; "_isDisabled" ].

Definition sanitizeChildProps (properties : Props) : Props :=
  omit properties omitted.

Definition defaultProps : Props := list_to_map [ ("_isDisabled", JBool false) ].

Definition constructor (properties : Props) : t :=
  {| props := properties; childProps := sanitizeChildProps properties |}.

Definition componentWillReceiveProps (properties : Props) : Method t unit :=
  setState_childProps (sanitizeChildProps properties).

Section Component.
Context (style : PlaceholderStyle.t).

Definition computedStyle (this : t) : Style :=
  let computedStyle :=
    objectSpread [PlaceholderStyle.style style;
                  ownProps (prop (props this) "style")] in
  if truthy (prop (props this) "_isDisabled") then
    objectSpread [computedStyle; PlaceholderStyle.disabledStyle style;
                  ownProps (prop (props this) "disabledStyle")]
  else computedStyle.

(** The attribute written out in the JSX tag, before [childProps] is
    spread over it. *)
Definition ownAttributes (this : t) : Props :=
  {[ "style" := JObj (computedStyle this) ]}.

Definition render (this : t) : Element :=
  {| tag := "div";
     attributes := propsSpread [ownAttributes this; childProps this];
     children := prop (props this) "children" |}.

(** New props: the hook, then the render with the new props (see the
    lifecycle of the Button). *)
Definition receive (properties : Props) (this : t) : t * Element :=
  let this := set_props properties (after (componentWillReceiveProps properties) this) in
  (this, render this).

End Component.
End Placeholder.

(** ** The style registry *)

Module Registry.
(** Modelled from the spec: [injectStyles] and [removeStyle] of
    [utils/inject-style], whose source is not part of the sources at hand:
    "[injectStyles(rules)] to register pseudo-class style rules under a
    generated id, [removeStyle(id)] to deregister them".  The registry is
    the list of the rules registered at the moment. *)
Definition injectStyles (styles : list Rule.t) (registry : list Rule.t)
    : list Rule.t :=
  registry ++ styles.

(** Modelled from the spec: [removeStyle(id)] of [utils/inject-style]
    deregisters the rules registered under [id], all of them. *)
Definition removeStyle (id : jsval) (registry : list Rule.t) : list Rule.t :=
  filter (λ r, Rule.id r ≠ id) registry.

(** The rules registered under an id. *)
Definition under (id : jsval) (registry : list Rule.t) : list Rule.t :=
  filter (λ r, Rule.id r = id) registry.

(** The registry after a logged call, and after a whole log. *)
Definition perform (registry : list Rule.t) (e : Effect) : list Rule.t :=
  match e with
  | InjectStyles styles => injectStyles styles registry
  | RemoveStyle id => removeStyle id registry
  | _ => registry
  end.

Definition performAll (effects : list Effect) (registry : list Rule.t)
    : list Rule.t :=
  foldl perform registry effects.

(** The calls that are not made on the style-injection service. *)
Definition elsewhere (e : Effect) : bool :=
  match e with
  | InjectStyles _ | RemoveStyle _ => false
  | _ => true
  end.
End Registry.

(** ** The specification's own words *)

Module Spec.

(** "Layered shallow merge, later layers win on conflicting property
    names": a property of the merge has the value that the last layer
    defining it gives it, and is absent when no layer defines it. *)
Definition laterWins (layers : list Style) (k : string) : option sval :=
  head (omap (λ layer : Style, layer !! k) (reverse layers)).

(** The variant's table entry: the primary one if [primary], the default
    one otherwise. *)
Definition variant (primary : jsval) (ofPrimary ofDefault : Style) : Style :=
  if truthy primary then ofPrimary else ofDefault.

(** The caller's override object for one state. *)
Definition override (p : Props) (k : string) : Style := ownProps (prop p k).

(** 4.3: "should show one-time focus style". *)
Definition oneTimeFocus (this : Button.t) : bool :=
  Button.focused this
  && negb (Button.active this)
  && negb (Button.mouseDownOnButton this)
  && truthy (Button.preventFocusStyleForTouchAndClick this).

(** 4.1, steps 1 to 6: the layers of the Button's inline style. *)
Definition layers (style : ButtonStyle.t) (this : Button.t) : list Style :=
  let p := Button.props this in
  let primary := prop p "primary" in
  [ variant primary (ButtonStyle.primaryStyle style) (ButtonStyle.style style);
    override p "style" ]
  ++ (if truthy (prop p "disabled") then
        [ variant primary (ButtonStyle.primaryDisabledStyle style)
            (ButtonStyle.disabledStyle style);
          override p "disabledStyle" ]
      else if Button.active this then
        [ variant primary (ButtonStyle.primaryActiveStyle style)
            (ButtonStyle.activeStyle style);
          override p "activeStyle" ]
      else if oneTimeFocus this then
        [ variant primary (ButtonStyle.primaryFocusStyle style)
            (ButtonStyle.focusStyle style);
          override p "focusStyle" ]
      else []).

(** The layers of the Placeholder's style. *)
Definition placeholderLayers (style : PlaceholderStyle.t) (this : Placeholder.t)
    : list Style :=
  let p := Placeholder.props this in
  [ PlaceholderStyle.style style; override p "style" ]
  ++ (if truthy (prop p "_isDisabled") then
        [ PlaceholderStyle.disabledStyle style; override p "disabledStyle" ]
      else []).

(** 3: the behavioral flags among the props of a Button. *)
Definition behavioralFlags : list string :=
  [ "disabled"; "primary"; "preventFocusStyleForTouchAndClick" ].

(** 6: the per-state visual overrides and the class name: the
    style-related keys. *)
Definition styleKeys : list string :=
  [ "style"; "disabledStyle"; "hoverStyle"; "focusStyle"; "activeStyle";
    "disabledHoverStyle"; "className" ].

(** 6: the caller hooks that the Button intercepts and re-dispatches. *)
Definition interceptedHandlers : list string :=
  [ "onTouchStart"; "onTouchEnd"; "onTouchCancel"; "onMouseDown"; "onFocus";
    "onBlur" ].

End Spec.

(** ** The layers of [render], block by block *)

(** The base of every branch: the variant's base style under the caller's
    [style]. *)
Definition baseLayers (style : ButtonStyle.t) (this : Button.t) : list Style :=
  [ Spec.variant (prop (Button.props this) "primary")
      (ButtonStyle.primaryStyle style) (ButtonStyle.style style);
    Spec.override (Button.props this) "style" ].

(** The two layers that each block of [render] puts on the base. *)
Definition branchLayers (style : ButtonStyle.t) (this : Button.t) (b : Button.Branch) : list Style :=
  let p := Button.props this in
  match b with
  | Button.DisabledBranch =>
      [ Spec.variant (prop p "primary") (ButtonStyle.primaryDisabledStyle style)
          (ButtonStyle.disabledStyle style);
        Spec.override p "disabledStyle" ]
  | Button.ActiveBranch =>
      [ Spec.variant (prop p "primary") (ButtonStyle.primaryActiveStyle style)
          (ButtonStyle.activeStyle style);
        Spec.override p "activeStyle" ]
  | Button.FocusBranch =>
      [ Spec.variant (prop p "primary") (ButtonStyle.primaryFocusStyle style)
          (ButtonStyle.focusStyle style);
        Spec.override p "focusStyle" ]
  | Button.PlainBranch => []
  end.

(** ** The forwarding of an event to the caller *)

(** The log of [if (this.props.name) { this.props.name(event); }]. *)
Definition callIfGiven (this : Button.t) (name : string) (e : Event) : list Effect :=
  if truthy (prop (Button.props this) name)
  then [CallProp name (prop (Button.props this) name) e] else [].

(** The calls made on the caller's callback [name]. *)
Definition isCallTo (name : string) (e : Effect) : bool :=
  match e with
  | CallProp n _ _ => String.eqb n name
  | _ => false
  end.

Definition callsTo (name : string) (effects : list Effect) : list Effect :=
  List.filter (isCallTo name) effects.

(** ** Sample data *)

Module Sample.

Definition one (k v : string) : Style := {[ k := SStr v ]}.

Definition buttonStyle : ButtonStyle.t :=
  {| ButtonStyle.style := one "background" "white";
     ButtonStyle.primaryStyle := one "background" "blue";
     ButtonStyle.hoverStyle := one "background" "grey";
     ButtonStyle.primaryHoverStyle := one "background" "navy";
     ButtonStyle.focusStyle := one "boxShadow" "ring";
     ButtonStyle.primaryFocusStyle := one "boxShadow" "bluering";
     ButtonStyle.activeStyle := one "boxShadow" "inset";
     ButtonStyle.primaryActiveStyle := one "boxShadow" "blueinset";
     ButtonStyle.disabledStyle := one "opacity" "half";
     ButtonStyle.primaryDisabledStyle := one "opacity" "third";
     ButtonStyle.disabledHoverStyle := one "cursor" "default";
     ButtonStyle.primaryDisabledHoverStyle := one "cursor" "none" |}.

Definition buttonConfig : ButtonConfig.t :=
  {| ButtonConfig.preventFocusStyleForTouchAndClick := JBool true |}.

Definition placeholderStyle : PlaceholderStyle.t :=
  {| PlaceholderStyle.style := one "padding" "small";
     PlaceholderStyle.disabledStyle := one "color" "grey" |}.

(** [has(obj, key)]: here, whether [obj] has [key] as an own property. *)
Definition has (o : Props) (k : string) : bool := bool_decide (is_Some (o !! k)).

(** [unionClassNames(a, b)]: here, the second name. *)
Definition unionClassNames (a b : jsval) : jsval := b.

(** A Button as it is after mounting, and one that has just been given
    the focus. *)
Definition mountedButton (properties : Props) : Button.t :=
  Button.set_styleId (JStr "style-id-0")
    (Button.constructor buttonConfig has properties).

Definition focusedButton (properties : Props) : Button.t :=
  Button.set_focused true (mountedButton properties).

Definition disabledProps : Props := {[ "disabled" := JBool true ]}.

(** Props that set both flags that the Button reads from them besides
    [primary]. *)
Definition flagProps : Props :=
  <["disabled" := JBool true]>
    {[ "preventFocusStyleForTouchAndClick" := JBool true ]}.

Definition touch : TouchEvent := {| touches := [ {| identifier := 0 |} ] |}.
Definition press : MouseEvent := {| button := 0 |}.
Definition focus : FocusEvent := {| relatedTarget := JNull |}.

End Sample.

(** ** Vocabulary of the further properties *)

(** The caller's override that the block of [render] spreads last; the
    plain block ends with the caller's [style]. *)
Definition branchOverride (b : Button.Branch) : string :=
  match b with
  | Button.DisabledBranch => "disabledStyle"
  | Button.ActiveBranch => "activeStyle"
  | Button.FocusBranch => "focusStyle"
  | Button.PlainBranch => "style"
  end.

(** The table's style that the block of [render] spreads over the base; the
    plain block spreads none. *)
Definition branchTable (style : ButtonStyle.t) (primary : jsval)
    (b : Button.Branch) : Style :=
  match b with
  | Button.DisabledBranch =>
      if truthy primary then ButtonStyle.primaryDisabledStyle style
      else ButtonStyle.disabledStyle style
  | Button.ActiveBranch =>
      if truthy primary then ButtonStyle.primaryActiveStyle style
      else ButtonStyle.activeStyle style
  | Button.FocusBranch =>
      if truthy primary then ButtonStyle.primaryFocusStyle style
      else ButtonStyle.focusStyle style
  | Button.PlainBranch => ∅
  end.

(** Calls of a caller's callback, among the logged calls. *)
Definition isCall (e : Effect) : bool :=
  match e with
  | CallProp _ _ _ => true
  | _ => false
  end.

(** Kinds of actions. *)
Definition isDom (a : Button.Action) : bool :=
  match a with
  | Button.Dom _ => true
  | Button.Receive _ => false
  end.

Definition isTouchStart (a : Button.Action) : bool :=
  match a with
  | Button.Dom (Button.TouchStart _) => true
  | _ => false
  end.

(** Whether a character occurs in a string. *)
Fixpoint occurs (c : ascii) (s : string) : bool :=
  match s with
  | EmptyString => false
  | String c' rest => Ascii.eqb c' c || occurs c rest
  end.

(** The fields that the constructor derives from the props are those that
    it would derive from the props the instance has now. *)
Definition inSync (config : ButtonConfig.t) (has : Props → string → bool)
    (this : Button.t) : Prop :=
  Button.childProps this
  = Button.childProps (Button.constructor config has (Button.props this))
  ∧ Button.preventFocusStyleForTouchAndClick this
    = Button.preventFocusStyleForTouchAndClick
        (Button.constructor config has (Button.props this)).

(** The fields that only the constructor and the props hook write. *)
Definition sameDerived (a b : Button.t) : Prop :=
  Button.props a = Button.props b
  ∧ Button.childProps a = Button.childProps b
  ∧ Button.preventFocusStyleForTouchAndClick a
    = Button.preventFocusStyleForTouchAndClick b
  ∧ Button.styleId a = Button.styleId b.

(** The event object that a handler is given. *)
Definition eventOf (ev : Button.DomEvent) : Event :=
  match ev with
  | Button.TouchStart e | Button.TouchEnd e | Button.TouchCancel e => ETouch e
  | Button.Focus e | Button.Blur e => EFocus e
  | Button.MouseDown e => EMouse e
  end.

(** * Properties *)

(** ** Objects *)

Lemma laterWins_snoc (layers : list Style) (layer : Style) (k : string) :
  Spec.laterWins (layers ++ [layer]) k =
  match layer !! k with
  | Some v => Some v
  | None => Spec.laterWins layers k
  end.
Proof.
  unfold Spec.laterWins. rewrite reverse_snoc. simpl.
  destruct (layer !! k); reflexivity.
Qed.

Lemma objectSpread_snoc (layers : list Style) (layer : Style) :
  objectSpread (layers ++ [layer]) = layer ∪ objectSpread layers.
Proof. unfold objectSpread. rewrite foldl_app. reflexivity. Qed.

(** Spreading is the merge in which later layers win, property by
    property. *)
Lemma objectSpread_lookup (layers : list Style) (k : string) :
  objectSpread layers !! k = Spec.laterWins layers k.
Proof.
  induction layers as [|layer layers IH] using rev_ind.
  - unfold objectSpread. simpl. apply lookup_empty.
  - rewrite objectSpread_snoc, laterWins_snoc, lookup_union, IH.
    destruct (layer !! k), (Spec.laterWins layers k); reflexivity.
Qed.

(** An object literal that starts by spreading another literal has the
    layers of both. *)
Lemma objectSpread_nested (inner outer : list Style) :
  objectSpread (objectSpread inner :: outer) = objectSpread (inner ++ outer).
Proof.
  induction outer as [|layer outer IH] using rev_ind.
  - rewrite app_nil_r. unfold objectSpread at 1. simpl.
    apply map_eq. intros k. rewrite lookup_union, lookup_empty.
    destruct (objectSpread inner !! k); reflexivity.
  - rewrite app_comm_cons, app_assoc, !objectSpread_snoc, IH. reflexivity.
Qed.

Lemma propsSpread_two_lookup (own over : Props) (k : string) :
  propsSpread [own; over] !! k =
  match over !! k with
  | Some v => Some v
  | None => own !! k
  end.
Proof.
  unfold propsSpread. simpl. rewrite !lookup_union, lookup_empty.
  destruct (over !! k), (own !! k); reflexivity.
Qed.

Lemma omit_lookup (o : Props) (keys : list string) (k : string) :
  omit o keys !! k = if decide (k ∈ keys) then None else o !! k.
Proof.
  unfold omit. induction keys as [|key keys IH]; cbn [foldr].
  - rewrite decide_False by apply not_elem_of_nil. reflexivity.
  - rewrite lookup_delete. destruct (decide (key = k)) as [->|Hne].
    + rewrite decide_True by (apply elem_of_cons; left; reflexivity).
      reflexivity.
    + rewrite IH. destruct (decide (k ∈ keys)) as [Hin|Hout].
      * rewrite decide_True by (apply elem_of_cons; right; exact Hin).
        reflexivity.
      * rewrite decide_False
          by (apply not_elem_of_cons; split;
              [intros E; apply Hne; symmetry; exact E | exact Hout]).
        reflexivity.
Qed.

Lemma prop_insert_eq (o : Props) (k : string) (v : jsval) :
  prop (<[k := v]> o) k = v.
Proof. unfold prop. rewrite lookup_insert_eq. reflexivity. Qed.

Lemma prop_insert_ne (o : Props) (k k' : string) (v : jsval) :
  k ≠ k' → prop (<[k := v]> o) k' = prop o k'.
Proof. intros Hne. unfold prop. rewrite lookup_insert_ne by exact Hne. reflexivity. Qed.

(** ** The inline style of the Button *)

Section ButtonStyleFacts.
Context (style : ButtonStyle.t).

(** [render] computes the spread of the base layers and of the layers of
    the block it runs. *)
Lemma buttonStyle_branch (this : Button.t) :
  Button.buttonStyle style this =
  objectSpread (baseLayers style this ++ branchLayers style this (Button.branch this)).
Proof.
  unfold Button.buttonStyle, Button.branch, baseLayers, branchLayers,
    Spec.variant, Spec.override.
  destruct (truthy (prop (Button.props this) "disabled")).
  - destruct (truthy (prop (Button.props this) "primary"));
      apply objectSpread_nested.
  - destruct (Button.active this).
    + apply objectSpread_nested.
    + destruct (Button.focused this && negb false
                && negb (Button.mouseDownOnButton this)
                && truthy (Button.preventFocusStyleForTouchAndClick this)).
      * apply objectSpread_nested.
      * rewrite app_nil_r. reflexivity.
Qed.

(** The block that [render] runs is the one that the specification's steps
    3 to 6 select. *)
Lemma layers_branch (this : Button.t) :
  Spec.layers style this =
  baseLayers style this ++ branchLayers style this (Button.branch this).
Proof.
  unfold Spec.layers, Button.branch, baseLayers, branchLayers, Spec.oneTimeFocus.
  destruct (truthy (prop (Button.props this) "disabled")); [reflexivity|].
  destruct (Button.active this); [reflexivity|].
  destruct (Button.focused this && negb false
            && negb (Button.mouseDownOnButton this)
            && truthy (Button.preventFocusStyleForTouchAndClick this));
    reflexivity.
Qed.

Lemma buttonStyle_layers (this : Button.t) :
  Button.buttonStyle style this = objectSpread (Spec.layers style this).
Proof. rewrite layers_branch. apply buttonStyle_branch. Qed.

End ButtonStyleFacts.

(** C1.  The inline style that [render] gives the native element is the
    layered shallow merge of the specification: property by property, the
    value of the last layer defining it, over the layers variant base,
    caller's [style], and then those of the one branch that applies:
    disabled (whatever [active] and [focused] are), else active, else
    one-time focus, else none.  It is the [style] attribute written on the
    element, and [style] is among the keys kept out of the forwarded
    props. *)
Theorem button_style_is_layered_merge
    (style : ButtonStyle.t) (unionClassNames : jsval → jsval → jsval)
    (this : Button.t) (k : string) :
  Button.buttonStyle style this !! k = Spec.laterWins (Spec.layers style this) k
  ∧ Button.buttonStyle style this = objectSpread (Spec.layers style this)
  ∧ (Button.ownAttributes style unionClassNames this !! "style"
     = Some (JObj (Button.buttonStyle style this))
     ∧ "style" ∈ Button.omitted)
  ∧ match Button.branch this with
    | Button.DisabledBranch =>
        truthy (prop (Button.props this) "disabled") = true
    | Button.ActiveBranch =>
        truthy (prop (Button.props this) "disabled") = false
        ∧ Button.active this = true
    | Button.FocusBranch =>
        truthy (prop (Button.props this) "disabled") = false
        ∧ Button.active this = false
        ∧ Spec.oneTimeFocus this = true
    | Button.PlainBranch =>
        truthy (prop (Button.props this) "disabled") = false
        ∧ Button.active this = false
        ∧ Spec.oneTimeFocus this = false
    end
  ∧ (∀ active focused pressed : bool,
       Button.buttonStyle style
         (Button.set_active active
            (Button.set_focused focused
               (Button.set_mouseDownOnButton pressed
                  (Button.set_props
                     (<["disabled" := JBool true]> (Button.props this)) this))))
       = objectSpread
           [ Spec.variant (prop (Button.props this) "primary")
               (ButtonStyle.primaryStyle style) (ButtonStyle.style style);
             Spec.override (Button.props this) "style";
             Spec.variant (prop (Button.props this) "primary")
               (ButtonStyle.primaryDisabledStyle style)
               (ButtonStyle.disabledStyle style);
             Spec.override (Button.props this) "disabledStyle" ]).
Proof.
  split; [|split; [|split; [|split]]]; cycle 4.
  { intros a f m. rewrite buttonStyle_branch.
    unfold Button.branch, baseLayers, branchLayers, Spec.override.
    cbn [Button.props Button.set_props Button.set_active Button.set_focused
         Button.set_mouseDownOnButton].
    rewrite prop_insert_eq. cbn [truthy app].
    rewrite !(prop_insert_ne _ "disabled" "primary") by discriminate.
    rewrite !(prop_insert_ne _ "disabled" "style") by discriminate.
    rewrite !(prop_insert_ne _ "disabled" "disabledStyle") by discriminate.
    reflexivity. }
  - rewrite buttonStyle_layers. apply objectSpread_lookup.
  - apply buttonStyle_layers.
  - split; [reflexivity | compute_done].
  - unfold Button.branch, Spec.oneTimeFocus.
    destruct (truthy (prop (Button.props this) "disabled")); [reflexivity|].
    destruct (Button.active this); [split; reflexivity|].
    destruct (Button.focused this && negb false
              && negb (Button.mouseDownOnButton this)
              && truthy (Button.preventFocusStyleForTouchAndClick this));
      repeat split; reflexivity.
Qed.

(** ** The one-time focus style *)

(** What each handler returns: the instance after it and its log. *)

Section Handlers.
Context (this : Button.t).

Lemma onMouseDown_run (e : MouseEvent) :
  Button._onMouseDown e this =
  (tt,
   if (button e =? 0)%Z && negb (truthy (prop (Button.props this) "disabled"))
   then Button.set_mouseDownOnButton true this else this,
   callIfGiven this "onMouseDown" (EMouse e)).
Proof.
  unfold Button._onMouseDown, callIfGiven, bind, self, when, assign, emit, ret.
  destruct ((button e =? 0)%Z && negb (truthy (prop (Button.props this) "disabled")));
    destruct (truthy (prop (Button.props this) "onMouseDown")); reflexivity.
Qed.

Lemma onFocus_run (e : FocusEvent) :
  Button._onFocus e this =
  (tt, Button.set_focused true this,
   ForceUpdate :: callIfGiven this "onFocus" (EFocus e)).
Proof.
  unfold Button._onFocus, callIfGiven, bind, self, when, assign, emit, ret.
  cbn [Button.props Button.set_focused].
  destruct (truthy (prop (Button.props this) "onFocus")); reflexivity.
Qed.

Lemma onBlur_run (e : FocusEvent) :
  Button._onBlur e this =
  (tt, Button.set_active false (Button.set_focused false this),
   SetState "active" :: callIfGiven this "onBlur" (EFocus e)).
Proof.
  unfold Button._onBlur, Button.setState_active, callIfGiven, bind, self, when,
    assign, emit, ret.
  cbn [Button.props Button.set_focused Button.set_active].
  destruct (truthy (prop (Button.props this) "onBlur")); reflexivity.
Qed.

Lemma onTouchStart_run (e : TouchEvent) :
  Button._onTouchStart e this =
  (tt,
   if negb (truthy (prop (Button.props this) "disabled"))
      && (length (touches e) =? 1)%nat
   then Button.set_active true this else this,
   (if negb (truthy (prop (Button.props this) "disabled"))
       && (length (touches e) =? 1)%nat
    then [SetState "active"] else [])
   ++ callIfGiven this "onTouchStart" (ETouch e)).
Proof.
  unfold Button._onTouchStart, Button.setState_active, callIfGiven, bind, self,
    when, assign, emit, ret.
  destruct (negb (truthy (prop (Button.props this) "disabled"))
            && (length (touches e) =? 1)%nat);
    destruct (truthy (prop (Button.props this) "onTouchStart")); reflexivity.
Qed.

Lemma onTouchEnd_run (e : TouchEvent) :
  Button._onTouchEnd e this =
  (tt, Button.set_active false this,
   SetState "active" :: callIfGiven this "onTouchEnd" (ETouch e)).
Proof.
  unfold Button._onTouchEnd, Button.setState_active, callIfGiven, bind, self,
    when, assign, emit, ret.
  cbn [Button.props Button.set_active].
  destruct (truthy (prop (Button.props this) "onTouchEnd")); reflexivity.
Qed.

Lemma onTouchCancel_run (e : TouchEvent) :
  Button._onTouchCancel e this =
  (tt, Button.set_active false this,
   SetState "active" :: callIfGiven this "onTouchEnd" (ETouch e)).
Proof.
  unfold Button._onTouchCancel, Button.setState_active, callIfGiven, bind, self,
    when, assign, emit, ret.
  cbn [Button.props Button.set_active].
  destruct (truthy (prop (Button.props this) "onTouchEnd")); reflexivity.
Qed.

End Handlers.

(** ** Steps of the lifecycle *)

Section Steps.
Context (style : ButtonStyle.t) (config : ButtonConfig.t).
Context (has : Props → string → bool).
Context (unionClassNames : jsval → jsval → jsval).

Local Abbreviation step := (Button.step style config has unionClassNames).
Local Abbreviation run := (Button.run style config has unionClassNames).
Local Abbreviation render := (Button.render style unionClassNames).

Lemma callIfGiven_schedules_nothing (this : Button.t) (name : string) (e : Event) :
  existsb Button.schedulesRender (callIfGiven this name e) = false.
Proof. unfold callIfGiven. destruct (truthy _); reflexivity. Qed.

Lemma componentDidUpdate_after (this : Button.t) :
  after Button.componentDidUpdate this =
  Button.set_mouseDownOnButton false (Button.set_focused false this).
Proof. reflexivity. Qed.

Lemma step_MouseDown (this : Button.t) (e : MouseEvent) :
  step (Button.Dom (Button.MouseDown e)) this =
  (if (button e =? 0)%Z && negb (truthy (prop (Button.props this) "disabled"))
   then Button.set_mouseDownOnButton true this else this,
   callIfGiven this "onMouseDown" (EMouse e),
   None).
Proof.
  unfold Button.step, Button.dispatch. rewrite onMouseDown_run.
  rewrite callIfGiven_schedules_nothing. reflexivity.
Qed.

Lemma step_Focus (this : Button.t) (e : FocusEvent) :
  step (Button.Dom (Button.Focus e)) this =
  (Button.set_mouseDownOnButton false (Button.set_focused false this),
   ForceUpdate :: callIfGiven this "onFocus" (EFocus e),
   Some {| Button.seen := Button.set_focused true this;
           Button.element := render (Button.set_focused true this) |}).
Proof.
  unfold Button.step, Button.dispatch. rewrite onFocus_run. reflexivity.
Qed.

(** Every step that renders leaves both flags down. *)
Lemma step_resets (a : Button.Action) (this : Button.t) :
  match step a this with
  | (this', _, Some _) =>
      Button.focused this' = false ∧ Button.mouseDownOnButton this' = false
  | (_, _, None) => True
  end.
Proof.
  destruct a as [properties|ev]; unfold Button.step.
  - destruct (Button.componentWillReceiveProps style config has properties this)
      as [[u this1] effects]. cbn. split; reflexivity.
  - destruct (Button.dispatch ev this) as [[u this1] effects].
    destruct (existsb Button.schedulesRender effects); [|exact I].
    cbn. split; reflexivity.
Qed.

(** Only [_onFocus] raises [focused]. *)
Lemma step_keeps_unfocused (a : Button.Action) (this : Button.t) :
  Button.isFocus a = false →
  Button.focused this = false →
  Button.focused (step a this).1.1 = false
  ∧ match (step a this).2 with
    | Some r => Button.focused (Button.seen r) = false
    | None => True
    end.
Proof.
  intros Ha Hf. destruct a as [properties|ev].
  - unfold Button.step, Button.componentWillReceiveProps, Button.setState_childProps,
      Button.updatePseudoClassStyle, bind, self, assign, emit.
    cbn. split; [reflexivity | exact Hf].
  - destruct ev as [e|e|e|e|e|e]; try discriminate Ha; unfold Button.step, Button.dispatch.
    + rewrite onTouchStart_run.
      destruct (negb (truthy (prop (Button.props this) "disabled"))
                && (length (touches e) =? 1)%nat); cbn [app existsb Button.schedulesRender orb].
      * cbn. split; [reflexivity | exact Hf].
      * rewrite callIfGiven_schedules_nothing. cbn. split; [exact Hf | exact I].
    + rewrite onTouchEnd_run. cbn. split; [reflexivity | exact Hf].
    + rewrite onTouchCancel_run. cbn. split; [reflexivity | exact Hf].
    + rewrite onBlur_run. cbn. split; reflexivity.
    + rewrite onMouseDown_run. rewrite callIfGiven_schedules_nothing.
      destruct ((button e =? 0)%Z && negb (truthy (prop (Button.props this) "disabled")));
        cbn; split; [exact Hf | exact I | exact Hf | exact I].
Qed.

Lemma branch_unfocused (this : Button.t) :
  Button.focused this = false → Button.branch this ≠ Button.FocusBranch.
Proof.
  intros Hf. unfold Button.branch. rewrite Hf. cbn [andb].
  destruct (truthy _); [discriminate|]. destruct (Button.active this); discriminate.
Qed.

End Steps.

(** C2, as stated, at a disabled Button that has the focus: the four
    conditions hold, and [render] runs the disabled block, whose style has
    nothing of the focus style. *)
Lemma focus_rule_fails_when_disabled :
  ¬ (∀ this : Button.t,
       Button.branch this = Button.FocusBranch ↔
       Button.focused this = true
       ∧ Button.active this = false
       ∧ Button.mouseDownOnButton this = false
       ∧ Button.preventFocusStyleForTouchAndClick this = JBool true)
  ∧ Button.buttonStyle Sample.buttonStyle
      (Sample.focusedButton Sample.disabledProps) !! "boxShadow" = None
  ∧ ButtonStyle.focusStyle Sample.buttonStyle !! "boxShadow" = Some (SStr "ring").
Proof.
  split; [|split; reflexivity].
  intros claim.
  destruct (claim (Sample.focusedButton Sample.disabledProps)) as [_ back].
  assert (Button.branch (Sample.focusedButton Sample.disabledProps)
          = Button.FocusBranch) as Hbranch
    by (apply back; repeat split; reflexivity).
  vm_compute in Hbranch. discriminate Hbranch.
Qed.

(** C2, amended.  On a Button that is not disabled, [render] applies the
    one-time focus layer exactly when [focused] is set, [active] is not,
    [mouseDownOnButton] is not, and [preventFocusStyleForTouchAndClick] is
    true (for the boolean that the prop is declared to be, [truthy] is the
    boolean itself); the style is the spread of the base layers and of the
    layers of the block that runs, and on a disabled Button the disabled
    block runs.  [_onMouseDown] raises [mouseDownOnButton] exactly for
    the primary button on a Button that is not disabled.  Hence, the flag
    being true: a press of the primary button followed by the focus renders
    once, without the focus layer; a focus with no press pending, on a
    Button that is not active, renders once with the focus layer. *)
Theorem one_time_focus_when_not_disabled
    (style : ButtonStyle.t) (config : ButtonConfig.t)
    (has : Props → string → bool) (unionClassNames : jsval → jsval → jsval)
    (this : Button.t) (press : MouseEvent) (focus : FocusEvent) :
  truthy (prop (Button.props this) "disabled") = false →
  (Button.branch this = Button.FocusBranch ↔
     Button.focused this = true
     ∧ Button.active this = false
     ∧ Button.mouseDownOnButton this = false
     ∧ truthy (Button.preventFocusStyleForTouchAndClick this) = true)
  ∧ Button.buttonStyle style this =
    objectSpread
      (baseLayers style this ++ branchLayers style this (Button.branch this))
  ∧ (∀ any : Button.t,
       truthy (prop (Button.props any) "disabled") = true →
       Button.branch any = Button.DisabledBranch)
  ∧ (∀ (any : Button.t) (e : MouseEvent),
       Button.mouseDownOnButton (after (Button._onMouseDown e) any) =
       if (button e =? 0)%Z && negb (truthy (prop (Button.props any) "disabled"))
       then true else Button.mouseDownOnButton any)
  ∧ (button press = 0%Z →
     ∃ this' effects r,
       Button.run style config has unionClassNames
         [Button.Dom (Button.MouseDown press); Button.Dom (Button.Focus focus)] this
       = (this', effects, [r])
       ∧ Button.branch (Button.seen r) ≠ Button.FocusBranch
       ∧ Button.buttonStyle style (Button.seen r) =
         objectSpread
           (baseLayers style this
            ++ branchLayers style this
                 (if Button.active this then Button.ActiveBranch
                  else Button.PlainBranch)))
  ∧ (Button.mouseDownOnButton this = false →
     Button.active this = false →
     truthy (Button.preventFocusStyleForTouchAndClick this) = true →
     ∃ this' effects r,
       Button.run style config has unionClassNames
         [Button.Dom (Button.Focus focus)] this
       = (this', effects, [r])
       ∧ Button.branch (Button.seen r) = Button.FocusBranch
       ∧ Button.buttonStyle style (Button.seen r) =
         objectSpread
           (baseLayers style this ++ branchLayers style this Button.FocusBranch)).
Proof.
  intros Henabled. split; [|split; [|split; [|split; [|split]]]].
  2: apply buttonStyle_branch.
  2: { intros any Hdisabled. unfold Button.branch. rewrite Hdisabled. reflexivity. }
  - unfold Button.branch. rewrite Henabled.
    destruct (Button.active this), (Button.focused this),
      (Button.mouseDownOnButton this),
      (truthy (Button.preventFocusStyleForTouchAndClick this));
      cbn; split; intros H; try discriminate H; try reflexivity;
      try (repeat split; reflexivity);
      destruct H as (H1 & H2 & H3 & H4); discriminate.
  - intros any e. unfold after. rewrite onMouseDown_run. cbn [fst snd].
    destruct ((button e =? 0)%Z && negb (truthy (prop (Button.props any) "disabled")));
      reflexivity.
  - intros Hprimary. cbn [Button.run].
    rewrite step_MouseDown, Hprimary, Henabled. cbn [Z.eqb andb negb].
    rewrite step_Focus. cbn [option_list app].
    eexists _, _, _. split; [reflexivity|]. cbn [Button.seen].
    assert (Button.branch
              (Button.set_focused true (Button.set_mouseDownOnButton true this))
            = if Button.active this then Button.ActiveBranch else Button.PlainBranch)
      as Hbranch.
    { unfold Button.branch. cbn. rewrite Henabled.
      destruct (Button.active this); reflexivity. }
    split.
    + rewrite Hbranch. destruct (Button.active this); discriminate.
    + rewrite buttonStyle_branch, Hbranch. reflexivity.
  - intros Hpress Hactive Hflag. cbn [Button.run].
    rewrite step_Focus. cbn [option_list app].
    eexists _, _, _. split; [reflexivity|]. cbn [Button.seen].
    assert (Button.branch (Button.set_focused true this) = Button.FocusBranch)
      as Hbranch.
    { unfold Button.branch. cbn. rewrite Henabled, Hactive, Hpress, Hflag.
      reflexivity. }
    split; [exact Hbranch|].
    rewrite buttonStyle_branch, Hbranch. reflexivity.
Qed.

Lemma one_time_focus_when_not_disabled_witness :
  truthy (prop (Button.props (Sample.mountedButton ∅)) "disabled") = false
  ∧ (∃ this' effects r,
       Button.run Sample.buttonStyle Sample.buttonConfig Sample.has Sample.unionClassNames
         [Button.Dom (Button.MouseDown Sample.press);
          Button.Dom (Button.Focus Sample.focus)] (Sample.mountedButton ∅)
       = (this', effects, [r])
       ∧ Button.branch (Button.seen r) ≠ Button.FocusBranch)
  ∧ (∃ this' effects r,
       Button.run Sample.buttonStyle Sample.buttonConfig Sample.has Sample.unionClassNames
         [Button.Dom (Button.Focus Sample.focus)] (Sample.mountedButton ∅)
       = (this', effects, [r])
       ∧ Button.branch (Button.seen r) = Button.FocusBranch).
Proof.
  assert (truthy (prop (Button.props (Sample.mountedButton ∅)) "disabled") = false)
    as Henabled by reflexivity.
  destruct (one_time_focus_when_not_disabled Sample.buttonStyle Sample.buttonConfig
           Sample.has               Sample.unionClassNames (Sample.mountedButton ∅) Sample.press
              Sample.focus Henabled)
    as (_ & _ & _ & _ & pointer & keyboard).
  split; [exact Henabled|]. split.
  - destruct pointer as (this' & effects & r & Hrun & Hbranch & _); [reflexivity|].
    exists this', effects, r. split; assumption.
  - destruct keyboard as (this' & effects & r & Hrun & Hbranch & _);
      [reflexivity ..|].
    exists this', effects, r. split; assumption.
Defined.

(** ** The flags between renders *)

Section Runs.
Context (style : ButtonStyle.t) (config : ButtonConfig.t).
Context (has : Props → string → bool).
Context (unionClassNames : jsval → jsval → jsval).

(** While no focus event comes, an instance whose [focused] is down keeps it
    down, and none of its renders runs the focus block. *)
Lemma run_unfocused (actions : list Button.Action) (this : Button.t) :
  forallb (λ a, negb (Button.isFocus a)) actions = true →
  Button.focused this = false →
  Button.focused (Button.run style config has unionClassNames actions this).1.1 = false
  ∧ Forall (λ r, Button.branch (Button.seen r) ≠ Button.FocusBranch)
      (Button.run style config has unionClassNames actions this).2.
Proof.
  revert this. induction actions as [|a actions IH]; intros this Hno Hf.
  - cbn. split; [exact Hf | constructor].
  - cbn [forallb] in Hno. apply andb_prop in Hno as [Ha Hrest].
    apply negb_true_iff in Ha.
    destruct (step_keeps_unfocused style config has unionClassNames a this Ha Hf)
      as [Hnext Hseen].
    cbn [Button.run].
    destruct (Button.step style config has unionClassNames a this)
      as [[this1 effects1] r] eqn:Hstep.
    cbn [fst snd] in Hnext, Hseen.
    destruct (IH this1 Hrest Hnext) as [Hfinal Hall].
    destruct (Button.run style config has unionClassNames actions this1)
      as [[this2 effects2] rs] eqn:Hrun.
    cbn [fst snd] in *. split; [exact Hfinal|].
    destruct r as [r|]; cbn [option_list app]; [|exact Hall].
    constructor; [|exact Hall]. apply branch_unfocused, Hseen.
Qed.

End Runs.

(** C3.  A render-and-commit cycle leaves [focused] and [mouseDownOnButton]
    false, whatever they were; so does every step of the lifecycle that
    renders, and so does mounting.  Hence a focus event is rendered once,
    with [focused] set, and until the next focus event no render, whether
    new props or a state change brought it, runs the focus block, the only
    one that puts the focus layers into the style. *)
Theorem flags_reset_after_every_cycle
    (style : ButtonStyle.t) (config : ButtonConfig.t)
    (has : Props → string → bool) (unionClassNames : jsval → jsval → jsval)
    (this : Button.t) (focus : FocusEvent) (actions : list Button.Action) :
  (Button.focused (after Button.componentDidUpdate this) = false
   ∧ Button.mouseDownOnButton (after Button.componentDidUpdate this) = false)
  ∧ (Button.focused (Button.renderAndCommit style unionClassNames this).1 = false
   ∧ Button.mouseDownOnButton (Button.renderAndCommit style unionClassNames this).1
     = false)
  ∧ (∀ a, match Button.step style config has unionClassNames a this with
          | (this', _, Some _) =>
              Button.focused this' = false ∧ Button.mouseDownOnButton this' = false
          | (_, _, None) => True
          end)
  ∧ (∀ rootNodeID properties,
       Button.focused
         (Button.mount style config has unionClassNames rootNodeID properties).1.1 = false
       ∧ Button.mouseDownOnButton
           (Button.mount style config has unionClassNames rootNodeID properties).1.1
         = false)
  ∧ (forallb (λ a, negb (Button.isFocus a)) actions = true →
     Forall (λ r, Button.branch (Button.seen r) ≠ Button.FocusBranch)
       (Button.run style config has unionClassNames actions
          (Button.renderAndCommit style unionClassNames this).1).2
     ∧ ∃ rs,
         (Button.run style config has unionClassNames
            (Button.Dom (Button.Focus focus) :: actions) this).2
         = {| Button.seen := Button.set_focused true this;
              Button.element :=
                Button.render style unionClassNames (Button.set_focused true this) |}
           :: rs
         ∧ Forall (λ r, Button.branch (Button.seen r) ≠ Button.FocusBranch) rs)
  ∧ (∀ seen : Button.t,
       Button.buttonStyle style seen =
       objectSpread
         (baseLayers style seen ++ branchLayers style seen (Button.branch seen))).
Proof.
  split; [split; reflexivity|].
  split; [split; reflexivity|]. split; [|split; [|split]].
  4: apply buttonStyle_branch.
  - intros a. apply step_resets.
  - intros rootNodeID properties. split; reflexivity.
  - intros Hno. split.
    + apply run_unfocused; [exact Hno | reflexivity].
    + cbn [Button.run]. rewrite step_Focus.
      destruct (run_unfocused style config has unionClassNames actions
                  (Button.set_mouseDownOnButton false (Button.set_focused false this))
                  Hno eq_refl) as [_ Hall].
      destruct (Button.run style config has unionClassNames actions
                  (Button.set_mouseDownOnButton false (Button.set_focused false this)))
        as [[this2 effects2] rs].
      exists rs. split; [reflexivity | exact Hall].
Qed.

Lemma flags_reset_after_every_cycle_witness :
  ∃ rs,
    (Button.run Sample.buttonStyle Sample.buttonConfig Sample.has Sample.unionClassNames
       [Button.Dom (Button.Focus Sample.focus);
        Button.Dom (Button.TouchStart Sample.touch);
        Button.Receive Sample.disabledProps;
        Button.Dom (Button.Blur Sample.focus)]
       (Sample.mountedButton ∅)).2
    = {| Button.seen := Sample.focusedButton ∅;
         Button.element :=
           Button.render Sample.buttonStyle Sample.unionClassNames
             (Sample.focusedButton ∅) |} :: rs
    ∧ Forall (λ r, Button.branch (Button.seen r) ≠ Button.FocusBranch) rs.
Proof.
  apply (flags_reset_after_every_cycle Sample.buttonStyle Sample.buttonConfig
           Sample.has            Sample.unionClassNames (Sample.mountedButton ∅) Sample.focus
           [Button.Dom (Button.TouchStart Sample.touch);
            Button.Receive Sample.disabledProps;
            Button.Dom (Button.Blur Sample.focus)]).
  reflexivity.
Defined.

(** ** Touch events *)

Lemma callsTo_callIfGiven_ne (this : Button.t) (name other : string) (e : Event) :
  String.eqb other name = false →
  callsTo name (callIfGiven this other e) = [].
Proof.
  intros Hne. unfold callsTo, callIfGiven.
  destruct (truthy _); cbn; [rewrite Hne|]; reflexivity.
Qed.

Lemma dispatch_never_calls_onTouchCancel (this : Button.t) (ev : Button.DomEvent) :
  callsTo "onTouchCancel" (log (Button.dispatch ev) this) = [].
Proof.
  unfold log.
  destruct ev as [e|e|e|e|e|e]; unfold Button.dispatch.
  - rewrite onTouchStart_run. cbn [snd].
    unfold callsTo. rewrite List.filter_app.
    fold (callsTo "onTouchCancel" (callIfGiven this "onTouchStart" (ETouch e))).
    rewrite callsTo_callIfGiven_ne by reflexivity.
    destruct (_ && _); reflexivity.
  - rewrite onTouchEnd_run. cbn [snd].
    change (callsTo "onTouchCancel" (callIfGiven this "onTouchEnd" (ETouch e)) = []).
    apply callsTo_callIfGiven_ne. reflexivity.
  - rewrite onTouchCancel_run. cbn [snd].
    change (callsTo "onTouchCancel" (callIfGiven this "onTouchEnd" (ETouch e)) = []).
    apply callsTo_callIfGiven_ne. reflexivity.
  - rewrite onFocus_run. cbn [snd].
    change (callsTo "onTouchCancel" (callIfGiven this "onFocus" (EFocus e)) = []).
    apply callsTo_callIfGiven_ne. reflexivity.
  - rewrite onBlur_run. cbn [snd].
    change (callsTo "onTouchCancel" (callIfGiven this "onBlur" (EFocus e)) = []).
    apply callsTo_callIfGiven_ne. reflexivity.
  - rewrite onMouseDown_run. cbn [snd].
    apply callsTo_callIfGiven_ne. reflexivity.
Qed.

(** C4.  [_onTouchStart], the handler of the touchStart event, sets
    [active] to true exactly when the Button is not disabled and the event
    has one touch point, and leaves the instance as it is otherwise; then
    it calls the caller's [onTouchStart], if one is given, in both cases. *)
Theorem touch_start_activates_on_single_touch (this : Button.t) (e : TouchEvent) :
  Button.dispatch (Button.TouchStart e) = Button._onTouchStart e
  ∧ (negb (truthy (prop (Button.props this) "disabled"))
       && (length (touches e) =? 1)%nat = true
     ↔ truthy (prop (Button.props this) "disabled") = false
       ∧ length (touches e) = 1%nat)
  ∧ after (Button._onTouchStart e) this =
    (if negb (truthy (prop (Button.props this) "disabled"))
        && (length (touches e) =? 1)%nat
     then Button.set_active true this else this)
  ∧ Button.active (after (Button._onTouchStart e) this) =
    (if negb (truthy (prop (Button.props this) "disabled"))
        && (length (touches e) =? 1)%nat
     then true else Button.active this)
  ∧ log (Button._onTouchStart e) this =
    (if negb (truthy (prop (Button.props this) "disabled"))
        && (length (touches e) =? 1)%nat
     then [SetState "active"] else [])
    ++ (if truthy (prop (Button.props this) "onTouchStart")
        then [CallProp "onTouchStart" (prop (Button.props this) "onTouchStart")
                (ETouch e)]
        else []).
Proof.
  split; [reflexivity|]. split.
  - rewrite andb_true_iff, negb_true_iff, Nat.eqb_eq. reflexivity.
  - unfold after, log. rewrite onTouchStart_run. cbn [fst snd].
    repeat split; try reflexivity.
    destruct (_ && _); reflexivity.
Qed.

(** C5.  [_onTouchEnd] and [_onTouchCancel], the handlers of the touchEnd
    and touchCancel events, both set [active] to false whatever the
    instance, and then call the caller's [onTouchEnd] if one is given.  No
    handler calls the caller's [onTouchCancel]; the [onTouchCancel] written
    on the native element is the Button's own handler, and [onTouchCancel]
    is among the keys kept out of the forwarded props. *)
Theorem touch_end_and_cancel_share_onTouchEnd
    (style : ButtonStyle.t) (unionClassNames : jsval → jsval → jsval)
    (this : Button.t) (e : TouchEvent) (ev : Button.DomEvent) :
  (Button.dispatch (Button.TouchEnd e) = Button._onTouchEnd e
   ∧ Button.dispatch (Button.TouchCancel e) = Button._onTouchCancel e)
  ∧ (after (Button._onTouchEnd e) this = Button.set_active false this
     ∧ after (Button._onTouchCancel e) this = Button.set_active false this)
  ∧ (log (Button._onTouchEnd e) this =
       SetState "active"
       :: (if truthy (prop (Button.props this) "onTouchEnd")
           then [CallProp "onTouchEnd" (prop (Button.props this) "onTouchEnd")
                   (ETouch e)]
           else [])
     ∧ log (Button._onTouchCancel e) this = log (Button._onTouchEnd e) this)
  ∧ callsTo "onTouchCancel" (log (Button.dispatch ev) this) = []
  ∧ (Button.ownAttributes style unionClassNames this !! "onTouchCancel"
     = Some (JBound "_onTouchCancel")
     ∧ "onTouchCancel" ∈ Button.omitted).
Proof.
  split; [split; reflexivity|].
  unfold after, log. rewrite onTouchEnd_run, onTouchCancel_run. cbn [fst snd].
  split; [split; reflexivity|]. split; [split; reflexivity|]. split.
  - apply dispatch_never_calls_onTouchCancel.
  - split; [reflexivity | compute_done].
Qed.

(** ** The pseudo-class rules *)

(** C7.  A call of [updatePseudoClassStyle] makes one call of
    [injectStyles], with four rules, all under the given style-id: hover,
    active, hover with the disabled flag, and focus.  The style of each is
    the variant's style for that state (the primary one if [primary]) merged
    with the caller's override for it, later layer winning; but the focus
    rule is [{ outline: 0 }] when [preventFocusStyleForTouchAndClick] is
    true.  The instance is left as it is. *)
Theorem registrar_submits_four_rules
    (style : ButtonStyle.t) (styleId : jsval) (properties : Props)
    (preventFocusStyleForTouchAndClick : jsval) (this : Button.t) (k : string) :
  ∃ rules,
    Button.updatePseudoClassStyle style styleId properties
      preventFocusStyleForTouchAndClick this
    = (tt, this, [InjectStyles rules])
    ∧ length rules = 4%nat
    ∧ Rule.id <$> rules = [styleId; styleId; styleId; styleId]
    ∧ Rule.pseudoClass <$> rules = ["hover"; "active"; "hover"; "focus"]
    ∧ Rule.disabled <$> rules = [None; None; Some true; None]
    ∧ (λ r, Rule.style r !! k) <$> rules =
      [ Spec.laterWins
          [ Spec.variant (prop properties "primary")
              (ButtonStyle.primaryHoverStyle style) (ButtonStyle.hoverStyle style);
            Spec.override properties "hoverStyle" ] k;
        Spec.laterWins
          [ Spec.variant (prop properties "primary")
              (ButtonStyle.primaryActiveStyle style) (ButtonStyle.activeStyle style);
            Spec.override properties "activeStyle" ] k;
        Spec.laterWins
          [ Spec.variant (prop properties "primary")
              (ButtonStyle.primaryDisabledHoverStyle style)
              (ButtonStyle.disabledHoverStyle style);
            Spec.override properties "disabledHoverStyle" ] k;
        if truthy preventFocusStyleForTouchAndClick
        then ({[ "outline" := SNum 0 ]} : Style) !! k
        else
          Spec.laterWins
            [ Spec.variant (prop properties "primary")
                (ButtonStyle.primaryFocusStyle style) (ButtonStyle.focusStyle style);
              Spec.override properties "focusStyle" ] k ].
Proof.
  unfold Button.updatePseudoClassStyle, emit.
  eexists. split; [reflexivity|].
  repeat split.
  cbn [fmap list_fmap Rule.style].
  rewrite !objectSpread_lookup.
  unfold Spec.variant, Spec.override.
  destruct (truthy preventFocusStyleForTouchAndClick); [reflexivity|].
  rewrite objectSpread_lookup. reflexivity.
Qed.

(** C10.  When [preventFocusStyleForTouchAndClick] is true, the focus rule
    handed to [injectStyles] is [{ outline: 0 }] under the style-id,
    whatever the props and the style table are; giving the props another
    [focusStyle] changes nothing in the call.  Nor does it change the inline
    style of a render that does not run the one-time focus block. *)
Theorem focus_rule_is_outline_zero_when_prevented
    (style : ButtonStyle.t) (styleId : jsval) (properties : Props)
    (preventFocusStyleForTouchAndClick : jsval) (this : Button.t)
    (focusStyle : jsval) :
  truthy preventFocusStyleForTouchAndClick = true →
  (∃ hover active disabledHover,
     log (Button.updatePseudoClassStyle style styleId properties
            preventFocusStyleForTouchAndClick) this
     = [InjectStyles
          [ hover; active; disabledHover;
            {| Rule.id := styleId;
               Rule.style := {[ "outline" := SNum 0 ]};
               Rule.pseudoClass := "focus";
               Rule.disabled := None |} ]])
  ∧ Button.updatePseudoClassStyle style styleId
      (<["focusStyle" := focusStyle]> properties)
      preventFocusStyleForTouchAndClick this
    = Button.updatePseudoClassStyle style styleId properties
        preventFocusStyleForTouchAndClick this
  ∧ (Button.branch this ≠ Button.FocusBranch →
     Button.buttonStyle style
       (Button.set_props (<["focusStyle" := focusStyle]> (Button.props this)) this)
     = Button.buttonStyle style this).
Proof.
  intros Hprevent. split; [|split].
  - unfold log, Button.updatePseudoClassStyle, emit. rewrite Hprevent.
    eexists _, _, _. reflexivity.
  - unfold Button.updatePseudoClassStyle. rewrite Hprevent.
    rewrite !prop_insert_ne by discriminate. reflexivity.
  - unfold Button.branch, Button.buttonStyle.
    cbn [Button.props Button.set_props Button.active Button.focused
         Button.mouseDownOnButton Button.preventFocusStyleForTouchAndClick].
    rewrite !(prop_insert_ne _ "focusStyle" "primary") by discriminate.
    rewrite !(prop_insert_ne _ "focusStyle" "style") by discriminate.
    rewrite !(prop_insert_ne _ "focusStyle" "disabled") by discriminate.
    rewrite !(prop_insert_ne _ "focusStyle" "disabledStyle") by discriminate.
    rewrite !(prop_insert_ne _ "focusStyle" "activeStyle") by discriminate.
    destruct (truthy (prop (Button.props this) "disabled")); [reflexivity|].
    destruct (Button.active this); [reflexivity|].
    destruct (Button.focused this && negb false
              && negb (Button.mouseDownOnButton this)
              && truthy (Button.preventFocusStyleForTouchAndClick this));
      [intros Hneq; contradiction Hneq; reflexivity | reflexivity].
Qed.

Lemma focus_rule_is_outline_zero_when_prevented_witness :
  truthy (JBool true) = true
  ∧ ∃ hover active disabledHover,
      log (Button.updatePseudoClassStyle Sample.buttonStyle (JStr "style-id-0")
             {[ "focusStyle" := JObj (Sample.one "outline" "thick") ]}
             (JBool true)) (Sample.mountedButton ∅)
      = [InjectStyles
           [ hover; active; disabledHover;
             {| Rule.id := JStr "style-id-0";
                Rule.style := {[ "outline" := SNum 0 ]};
                Rule.pseudoClass := "focus";
                Rule.disabled := None |} ]].
Proof.
  split; [reflexivity|].
  apply (focus_rule_is_outline_zero_when_prevented Sample.buttonStyle
           (JStr "style-id-0")
           {[ "focusStyle" := JObj (Sample.one "outline" "thick") ]}
           (JBool true) (Sample.mountedButton ∅) JNull).
  reflexivity.
Defined.

(** ** The registration of the rules *)

Section RegistryFacts.
Context (id : jsval).

Lemma under_removeStyle (registry : list Rule.t) :
  Registry.under id (Registry.removeStyle id registry) = [].
Proof.
  unfold Registry.under, Registry.removeStyle.
  induction registry as [|r registry IH]; [reflexivity|].
  destruct (decide (Rule.id r = id)) as [Heq|Hne].
  - rewrite (filter_cons_False (λ r, Rule.id r ≠ id)) by (intros H; exact (H Heq)).
    exact IH.
  - rewrite (filter_cons_True (λ r, Rule.id r ≠ id)) by exact Hne.
    rewrite (filter_cons_False (λ r, Rule.id r = id)) by exact Hne.
    exact IH.
Qed.

Lemma removeStyle_fresh (registry : list Rule.t) :
  Registry.under id registry = [] → Registry.removeStyle id registry = registry.
Proof.
  unfold Registry.under, Registry.removeStyle.
  induction registry as [|r registry IH]; [reflexivity|].
  destruct (decide (Rule.id r = id)) as [Heq|Hne].
  - rewrite (filter_cons_True (λ r, Rule.id r = id)) by exact Heq. discriminate.
  - rewrite (filter_cons_False (λ r, Rule.id r = id)) by exact Hne.
    rewrite (filter_cons_True (λ r, Rule.id r ≠ id)) by exact Hne.
    intros H. rewrite (IH H). reflexivity.
Qed.

Lemma under_own (rules : list Rule.t) :
  Forall (λ r, Rule.id r = id) rules → Registry.under id rules = rules.
Proof.
  unfold Registry.under. induction 1 as [|r rules Hr _ IH]; [reflexivity|].
  rewrite filter_cons_True by exact Hr. rewrite IH. reflexivity.
Qed.

Lemma removeStyle_own (rules : list Rule.t) :
  Forall (λ r, Rule.id r = id) rules → Registry.removeStyle id rules = [].
Proof.
  unfold Registry.removeStyle. induction 1 as [|r rules Hr _ IH]; [reflexivity|].
  rewrite filter_cons_False by (intros H; exact (H Hr)). exact IH.
Qed.

Lemma removeStyle_twice (registry : list Rule.t) :
  Registry.removeStyle id (Registry.removeStyle id registry)
  = Registry.removeStyle id registry.
Proof. apply removeStyle_fresh, under_removeStyle. Qed.

(** A registry is the rules under the id and the others. *)
Lemma length_split (registry : list Rule.t) :
  length registry =
  (length (Registry.under id registry)
   + length (Registry.removeStyle id registry))%nat.
Proof.
  unfold Registry.under, Registry.removeStyle.
  induction registry as [|r registry IH]; [reflexivity|].
  destruct (decide (Rule.id r = id)) as [Heq|Hne].
  - rewrite (filter_cons_True (λ r, Rule.id r = id)) by exact Heq.
    rewrite (filter_cons_False (λ r, Rule.id r ≠ id)) by (intros H; exact (H Heq)).
    cbn [length]. rewrite IH. reflexivity.
  - rewrite (filter_cons_False (λ r, Rule.id r = id)) by exact Hne.
    rewrite (filter_cons_True (λ r, Rule.id r ≠ id)) by exact Hne.
    cbn [length]. rewrite IH. lia.
Qed.

(** Deregistering and then registering the rules of the id again. *)
Lemma replace_registration (registry rules : list Rule.t) :
  Forall (λ r, Rule.id r = id) rules →
  Registry.under id (Registry.removeStyle id registry ++ rules) = rules
  ∧ Registry.removeStyle id (Registry.removeStyle id registry ++ rules)
    = Registry.removeStyle id registry.
Proof.
  intros Hown. split.
  - unfold Registry.under. rewrite filter_app.
    fold (Registry.under id (Registry.removeStyle id registry)).
    fold (Registry.under id rules).
    rewrite under_removeStyle. rewrite (under_own rules) by exact Hown. reflexivity.
  - unfold Registry.removeStyle at 1. rewrite filter_app.
    fold (Registry.removeStyle id (Registry.removeStyle id registry)).
    fold (Registry.removeStyle id rules).
    rewrite removeStyle_twice. rewrite (removeStyle_own rules) by exact Hown.
    apply app_nil_r.
Qed.

End RegistryFacts.

Section Registration.
Context (style : ButtonStyle.t) (config : ButtonConfig.t).
Context (has : Props → string → bool).
Context (unionClassNames : jsval → jsval → jsval).

Lemma performAll_app (effects1 effects2 : list Effect) (registry : list Rule.t) :
  Registry.performAll (effects1 ++ effects2) registry
  = Registry.performAll effects2 (Registry.performAll effects1 registry).
Proof. unfold Registry.performAll. apply foldl_app. Qed.

Lemma performAll_elsewhere (effects : list Effect) (registry : list Rule.t) :
  forallb Registry.elsewhere effects = true →
  Registry.performAll effects registry = registry.
Proof.
  unfold Registry.performAll. revert registry.
  induction effects as [|e effects IH]; intros registry Hall; [reflexivity|].
  cbn [forallb] in Hall. apply andb_prop in Hall as [He Hrest].
  cbn [foldl]. destruct e; try discriminate He; exact (IH _ Hrest).
Qed.

Lemma callIfGiven_elsewhere (this : Button.t) (name : string) (e : Event) :
  forallb Registry.elsewhere (callIfGiven this name e) = true.
Proof. unfold callIfGiven. destruct (truthy _); reflexivity. Qed.

Lemma dispatch_elsewhere (ev : Button.DomEvent) (this : Button.t) :
  forallb Registry.elsewhere (log (Button.dispatch ev) this) = true
  ∧ Button.styleId (after (Button.dispatch ev) this) = Button.styleId this.
Proof.
  unfold log, after.
  destruct ev as [e|e|e|e|e|e]; unfold Button.dispatch.
  - rewrite onTouchStart_run. cbn [fst snd]. rewrite forallb_app.
    rewrite callIfGiven_elsewhere.
    destruct (negb (truthy (prop (Button.props this) "disabled"))
              && (length (touches e) =? 1)%nat); split; reflexivity.
  - rewrite onTouchEnd_run. cbn [fst snd forallb Registry.elsewhere].
    rewrite callIfGiven_elsewhere. split; reflexivity.
  - rewrite onTouchCancel_run. cbn [fst snd forallb Registry.elsewhere].
    rewrite callIfGiven_elsewhere. split; reflexivity.
  - rewrite onFocus_run. cbn [fst snd forallb Registry.elsewhere].
    rewrite callIfGiven_elsewhere. split; reflexivity.
  - rewrite onBlur_run. cbn [fst snd forallb Registry.elsewhere].
    rewrite callIfGiven_elsewhere. split; reflexivity.
  - rewrite onMouseDown_run. cbn [fst snd].
    rewrite callIfGiven_elsewhere.
    destruct ((button e =? 0)%Z
              && negb (truthy (prop (Button.props this) "disabled")));
      split; reflexivity.
Qed.

(** The rules that [updatePseudoClassStyle] submits are four, all under
    the id it is given. *)
Lemma updatePseudoClassStyle_run
    (styleId : jsval) (properties : Props) (prevent : jsval) (this : Button.t) :
  ∃ rules,
    Button.updatePseudoClassStyle style styleId properties prevent this
    = (tt, this, [InjectStyles rules])
    ∧ length rules = 4%nat
    ∧ Forall (λ r, Rule.id r = styleId) rules.
Proof.
  unfold Button.updatePseudoClassStyle, emit. eexists. split; [reflexivity|].
  split; [reflexivity|]. repeat constructor.
Qed.

Lemma componentWillReceiveProps_run (properties : Props) (this : Button.t) :
  ∃ rules,
    log (Button.componentWillReceiveProps style config has properties) this
    = [SetState "childProps"; RemoveStyle (Button.styleId this); InjectStyles rules]
    ∧ length rules = 4%nat
    ∧ Forall (λ r, Rule.id r = Button.styleId this) rules
    ∧ Button.styleId (after (Button.componentWillReceiveProps style config has properties) this)
      = Button.styleId this
    ∧ Button.childProps
        (after (Button.componentWillReceiveProps style config has properties) this)
      = Button.sanitizeChildProps properties.
Proof.
  unfold log, after, Button.componentWillReceiveProps, Button.setState_childProps,
    Button.updatePseudoClassStyle, bind, self, assign, emit.
  cbn. eexists. split; [reflexivity|]. split; [reflexivity|].
  split; [repeat constructor|]. split; reflexivity.
Qed.

(** A step keeps the style-id, and either leaves the registry alone or
    replaces the registration of the id by four rules. *)
Lemma step_registry (a : Button.Action) (this : Button.t) (registry : list Rule.t) :
  Button.styleId (Button.step style config has unionClassNames a this).1.1
  = Button.styleId this
  ∧ (Registry.performAll (Button.step style config has unionClassNames a this).1.2 registry
     = registry
     ∨ ∃ rules,
         length rules = 4%nat
         ∧ Forall (λ r, Rule.id r = Button.styleId this) rules
         ∧ Registry.performAll
             (Button.step style config has unionClassNames a this).1.2 registry
           = Registry.removeStyle (Button.styleId this) registry ++ rules).
Proof.
  destruct a as [properties|ev]; unfold Button.step.
  - destruct (componentWillReceiveProps_run properties this)
      as (rules & Hlog & Hlen & Hown & Hid & _).
    unfold log, after in Hlog, Hid.
    destruct (Button.componentWillReceiveProps style config has properties this)
      as [[u this1] effects].
    cbn [fst snd] in *. subst effects. split; [exact Hid|].
    right. exists rules. repeat split; assumption.
  - destruct (dispatch_elsewhere ev this) as [Hlog Hid].
    unfold log, after in Hlog, Hid.
    destruct (Button.dispatch ev this) as [[u this1] effects].
    cbn [fst snd] in *.
    destruct (existsb Button.schedulesRender effects); cbn [fst snd];
      (split; [exact Hid | left; apply performAll_elsewhere, Hlog]).
Qed.

(** The registrations of a run: if the id has four rules in the registry
    before, it has four after, and the rules of the other ids are the same. *)
Lemma run_registry (actions : list Button.Action) (this : Button.t)
    (registry : list Rule.t) :
  length (Registry.under (Button.styleId this) registry) = 4%nat →
  Button.styleId (Button.run style config has unionClassNames actions this).1.1
  = Button.styleId this
  ∧ length
      (Registry.under (Button.styleId this)
         (Registry.performAll
            (Button.run style config has unionClassNames actions this).1.2 registry))
    = 4%nat
  ∧ Registry.removeStyle (Button.styleId this)
      (Registry.performAll
         (Button.run style config has unionClassNames actions this).1.2 registry)
    = Registry.removeStyle (Button.styleId this) registry.
Proof.
  revert this registry.
  induction actions as [|a actions IH]; intros this registry Hfour.
  - cbn. repeat split; [exact Hfour].
  - cbn [Button.run].
    destruct (step_registry a this registry) as [Hid Hstep].
    destruct (Button.step style config has unionClassNames a this)
      as [[this1 effects1] r].
    cbn [fst snd] in Hid, Hstep.
    assert (length (Registry.under (Button.styleId this)
                      (Registry.performAll effects1 registry)) = 4%nat
            ∧ Registry.removeStyle (Button.styleId this)
                (Registry.performAll effects1 registry)
              = Registry.removeStyle (Button.styleId this) registry)
      as [Hfour1 Hothers1].
    { destruct Hstep as [-> | (rules & Hlen & Hown & ->)]; [split; [exact Hfour|reflexivity]|].
      destruct (replace_registration (Button.styleId this) registry rules Hown)
        as [-> ->]. split; [exact Hlen | reflexivity]. }
    rewrite <- Hid in Hfour1.
    destruct (IH this1 (Registry.performAll effects1 registry) Hfour1)
      as (Hid2 & Hfour2 & Hothers2).
    destruct (Button.run style config has unionClassNames actions this1)
      as [[this2 effects2] rs].
    cbn [fst snd] in *. rewrite performAll_app.
    rewrite Hid in Hid2, Hfour2, Hothers2.
    repeat split; [exact Hid2 | exact Hfour2 |].
    rewrite Hothers2. exact Hothers1.
Qed.

End Registration.

(** C6.  With the registry of the specification: a Button mounted under a
    style-id that has no rules yet registers four rules under it; through
    any run of new props and events the id keeps exactly four rules and the
    registry keeps its size, because [componentWillReceiveProps] calls
    [removeStyle] on the id before [injectStyles]; and unmounting calls
    [removeStyle] on the id, which leaves the registry as it was before the
    Button was mounted. *)
Theorem one_registration_per_instance
    (style : ButtonStyle.t) (config : ButtonConfig.t)
    (has : Props → string → bool) (unionClassNames : jsval → jsval → jsval)
    (rootNodeID : string) (properties : Props) (actions : list Button.Action)
    (registry : list Rule.t) :
  let id := JStr ("style-id" +:+ replaceDots rootNodeID) in
  let mounted := Button.mount style config has unionClassNames rootNodeID properties in
  let ran := Button.run style config has unionClassNames actions mounted.1.1 in
  let registry1 := Registry.performAll (mounted.1.2 ++ ran.1.2) registry in
  Registry.under id registry = [] →
  (Button.styleId mounted.1.1 = id ∧ Button.styleId ran.1.1 = id)
  ∧ length (Registry.under id (Registry.performAll mounted.1.2 registry)) = 4%nat
  ∧ length (Registry.under id registry1) = 4%nat
  ∧ length registry1 = (length registry + 4)%nat
  ∧ Registry.performAll (Button.unmount ran.1.1) registry1 = registry
  ∧ (∀ (this : Button.t) (newProps : Props),
       ∃ rules,
         log (Button.componentWillReceiveProps style config has newProps) this
         = [ SetState "childProps"; RemoveStyle (Button.styleId this);
             InjectStyles rules ]
         ∧ length rules = 4%nat
         ∧ Forall (λ r, Rule.id r = Button.styleId this) rules)
  ∧ (∀ this : Button.t, Button.unmount this = [RemoveStyle (Button.styleId this)]).
Proof.
  intros id mounted ran registry1 Hfresh.
  assert (∃ rules,
            mounted.1.2 = [InjectStyles rules]
            ∧ length rules = 4%nat
            ∧ Forall (λ r, Rule.id r = id) rules
            ∧ Button.styleId mounted.1.1 = id)
    as (rules0 & Hlog0 & Hlen0 & Hown0 & Hid0).
  { subst mounted. unfold Button.mount, Button.componentWillMount,
      Button.updatePseudoClassStyle, bind, self, assign, emit.
    cbn. eexists. split; [reflexivity|]. split; [reflexivity|].
    split; [repeat constructor | reflexivity]. }
  assert (Registry.under id (Registry.performAll mounted.1.2 registry) = rules0
          ∧ Registry.removeStyle id (Registry.performAll mounted.1.2 registry)
            = registry)
    as [Hunder0 Hothers0].
  { rewrite Hlog0. cbn [Registry.performAll foldl Registry.perform].
    unfold Registry.injectStyles, Registry.under, Registry.removeStyle.
    rewrite !filter_app.
    fold (Registry.under id registry). fold (Registry.under id rules0).
    fold (Registry.removeStyle id registry). fold (Registry.removeStyle id rules0).
    rewrite Hfresh, (under_own id rules0 Hown0), (removeStyle_own id rules0 Hown0).
    rewrite (removeStyle_fresh id registry Hfresh), app_nil_r.
    split; reflexivity. }
  assert (length (Registry.under (Button.styleId mounted.1.1)
                    (Registry.performAll mounted.1.2 registry)) = 4%nat)
    as Hfour0 by (rewrite Hid0, Hunder0; exact Hlen0).
  destruct (run_registry style config has unionClassNames actions mounted.1.1
              (Registry.performAll mounted.1.2 registry) Hfour0)
    as (Hid1 & Hfour1 & Hothers1).
  fold ran in Hid1, Hfour1, Hothers1. rewrite Hid0 in Hid1, Hfour1, Hothers1.
  assert (registry1
          = Registry.performAll ran.1.2 (Registry.performAll mounted.1.2 registry))
    as Hregistry1 by (subst registry1; apply performAll_app).
  rewrite <- Hregistry1 in Hfour1, Hothers1.
  split; [split; [exact Hid0 | exact Hid1]|].
  split; [rewrite Hunder0; exact Hlen0|].
  split; [exact Hfour1|].
  split.
  { rewrite (length_split id registry1), Hfour1, Hothers1, Hothers0. lia. }
  split.
  { change (Registry.removeStyle (Button.styleId ran.1.1) registry1 = registry).
    rewrite Hid1, Hothers1. exact Hothers0. }
  split.
  - intros this newProps.
    destruct (componentWillReceiveProps_run style config has newProps this)
      as (rules & Hlog & Hlen & Hown & _).
    exists rules. repeat split; assumption.
  - intros this. reflexivity.
Qed.

Lemma one_registration_per_instance_witness :
  Registry.under (JStr "style-id-0-1") [] = []
  ∧ length
      (Registry.under (JStr "style-id-0-1")
         (Registry.performAll
            ((Button.mount Sample.buttonStyle Sample.buttonConfig Sample.has
                Sample.unionClassNames ".0.1" ∅).1.2
             ++ (Button.run Sample.buttonStyle Sample.buttonConfig Sample.has
                   Sample.unionClassNames
                   [Button.Receive Sample.disabledProps; Button.Receive ∅]
                   (Button.mount Sample.buttonStyle Sample.buttonConfig Sample.has
                      Sample.unionClassNames ".0.1" ∅).1.1).1.2)
            [])) = 4%nat.
Proof.
  split; [reflexivity|].
  apply (one_registration_per_instance Sample.buttonStyle Sample.buttonConfig
           Sample.has            Sample.unionClassNames ".0.1" ∅
           [Button.Receive Sample.disabledProps; Button.Receive ∅] []).
  reflexivity.
Defined.

(** ** Placeholder *)

Lemma computedStyle_layers (style : PlaceholderStyle.t) (this : Placeholder.t) :
  Placeholder.computedStyle style this
  = objectSpread (Spec.placeholderLayers style this).
Proof.
  unfold Placeholder.computedStyle, Spec.placeholderLayers, Spec.override.
  destruct (truthy (prop (Placeholder.props this) "_isDisabled")).
  - apply objectSpread_nested.
  - rewrite app_nil_r. reflexivity.
Qed.

(** C8.  The style that the Placeholder computes is the default style
    merged with the caller's [style] and, when [_isDisabled], further with
    the default [disabledStyle] and then the caller's [disabledStyle], later
    layer winning; it is the [style] attribute written on the [div], and
    [style] is among the keys kept out of the forwarded props.  So with
    [disabledStyle = { color: 'red' }] and [_isDisabled = true], whatever
    the table and the other props, the style has [color: 'red']. *)
Theorem placeholder_style_is_layered_merge
    (style : PlaceholderStyle.t) (this : Placeholder.t)
    (others : Props) (k : string) :
  Placeholder.computedStyle style this !! k
  = Spec.laterWins (Spec.placeholderLayers style this) k
  ∧ Placeholder.computedStyle style this =
    (if truthy (prop (Placeholder.props this) "_isDisabled")
     then objectSpread [ PlaceholderStyle.style style;
                         ownProps (prop (Placeholder.props this) "style");
                         PlaceholderStyle.disabledStyle style;
                         ownProps (prop (Placeholder.props this) "disabledStyle") ]
     else objectSpread [ PlaceholderStyle.style style;
                         ownProps (prop (Placeholder.props this) "style") ])
  ∧ (Placeholder.ownAttributes style this !! "style"
     = Some (JObj (Placeholder.computedStyle style this))
     ∧ "style" ∈ Placeholder.omitted)
  ∧ Placeholder.computedStyle style
      (Placeholder.constructor
         (<["disabledStyle" := JObj {[ "color" := SStr "red" ]}]>
            (<["_isDisabled" := JBool true]> others))) !! "color"
    = Some (SStr "red").
Proof.
  split; [|split; [|split]].
  - rewrite computedStyle_layers. apply objectSpread_lookup.
  - rewrite computedStyle_layers. unfold Spec.placeholderLayers, Spec.override.
    destruct (truthy _); reflexivity.
  - split; [apply lookup_singleton_eq | compute_done].
  - rewrite computedStyle_layers, objectSpread_lookup.
    unfold Spec.placeholderLayers, Spec.override, Placeholder.constructor.
    cbn [Placeholder.props].
    rewrite (prop_insert_ne _ "disabledStyle" "_isDisabled") by discriminate.
    rewrite !prop_insert_eq. cbn [truthy ownProps].
    match goal with
    | |- Spec.laterWins ([?a; ?b] ++ [?c; ?d]) ?key = _ =>
        change (Spec.laterWins ([a; b; c] ++ [d]) key = Some (SStr "red"))
    end.
    rewrite laterWins_snoc, lookup_singleton_eq. reflexivity.
Qed.

(** ** The props handed to the native element *)

Lemma ownAttributes_outside
    (style : ButtonStyle.t) (unionClassNames : jsval → jsval → jsval)
    (this : Button.t) (k : string) :
  k ∉ Button.omitted → Button.ownAttributes style unionClassNames this !! k = None.
Proof.
  intros Hout. unfold Button.ownAttributes.
  cbn [list_to_map foldr fst snd].
  rewrite !lookup_insert_ne
    by (intros <-; apply Hout; compute_done).
  apply lookup_empty.
Qed.

(** C9, as stated, at the flag [disabled], which the Button reads in
    [render] and in two handlers: the denylist does not have it, and the
    native element gets it.  The same holds of the flag
    [preventFocusStyleForTouchAndClick], read at construction and when
    props arrive. *)
Lemma denylist_keeps_disabled :
  ¬ Forall (λ k, k ∈ Button.omitted) Spec.behavioralFlags
  ∧ ¬ (∀ (properties : Props) (k : string),
         k ∈ Spec.behavioralFlags →
         Button.sanitizeChildProps properties !! k = None)
  ∧ attributes
      (Button.render Sample.buttonStyle Sample.unionClassNames
         (Button.constructor Sample.buttonConfig Sample.has Sample.flagProps)) !! "disabled"
    = Some (JBool true)
  ∧ attributes
      (Button.render Sample.buttonStyle Sample.unionClassNames
         (Button.constructor Sample.buttonConfig Sample.has Sample.flagProps))
    !! "preventFocusStyleForTouchAndClick"
    = Some (JBool true).
Proof.
  split.
  { intros Hall. apply Forall_cons in Hall as [Hin _].
    assert (bool_decide ("disabled" ∈ Button.omitted) = false) as Hout
      by reflexivity.
    apply bool_decide_eq_false in Hout. exact (Hout Hin). }
  split; [|split; reflexivity].
  intros claim.
  assert (Button.sanitizeChildProps Sample.flagProps !! "disabled" = None) as Hnone
    by (apply claim; compute_done).
  vm_compute in Hnone. discriminate Hnone.
Qed.

(** C9, amended.  For both components the forwarded props are the caller's
    props without the keys of a fixed denylist: a key of the list is not
    forwarded, and the native element has the component's own attribute
    under it, if any; any other key is forwarded with the caller's value.
    The Button's list has every style-related key, the flag [primary] and
    every handler that the Button intercepts, and not [disabled], which the
    native element gets; the Placeholder's list has its two style keys and
    [_isDisabled].  The forwarded props are computed from the props at
    construction and again from the new props whenever props arrive. *)
Theorem forwarded_props_are_props_without_denylist
    (style : ButtonStyle.t) (config : ButtonConfig.t)
    (has : Props → string → bool) (unionClassNames : jsval → jsval → jsval) (placeholder : PlaceholderStyle.t)
    (properties newProps : Props) (this : Button.t) (that : Placeholder.t)
    (k j : string) :
  k ≠ "preventFocusStyleForTouchAndClick" →
  (Button.sanitizeChildProps properties !! k
   = if decide (k ∈ Button.omitted) then None else properties !! k)
  ∧ (attributes
       (Button.render style unionClassNames (Button.constructor config has properties))
     !! k
     = if decide (k ∈ Button.omitted)
       then Button.ownAttributes style unionClassNames
              (Button.constructor config has properties) !! k
       else properties !! k)
  ∧ (Placeholder.sanitizeChildProps properties !! j
     = if decide (j ∈ Placeholder.omitted) then None else properties !! j)
  ∧ (attributes (Placeholder.render placeholder (Placeholder.constructor properties))
     !! j
     = if decide (j ∈ Placeholder.omitted)
       then Placeholder.ownAttributes placeholder
              (Placeholder.constructor properties) !! j
       else properties !! j)
  ∧ Forall (λ key, key ∈ Button.omitted)
      (Spec.styleKeys ++ ["primary"] ++ Spec.interceptedHandlers)
  ∧ Forall
      (λ key, key ∈ (Spec.styleKeys ++ ["primary"] ++ Spec.interceptedHandlers))
      Button.omitted
  ∧ ("disabled" ∉ Button.omitted)
  ∧ Placeholder.omitted = ["style"; "disabledStyle"; "_isDisabled"]
  ∧ (Button.childProps (Button.constructor config has properties)
     = Button.sanitizeChildProps properties
     ∧ Button.childProps
         (Button.step style config has unionClassNames (Button.Receive newProps) this).1.1
       = Button.sanitizeChildProps newProps)
  ∧ (Placeholder.childProps (Placeholder.constructor properties)
     = Placeholder.sanitizeChildProps properties
     ∧ Placeholder.childProps (Placeholder.receive placeholder newProps that).1
       = Placeholder.sanitizeChildProps newProps).
Proof.
  intros _.
  split; [apply omit_lookup|].
  split.
  { unfold Button.render. cbn [attributes Button.childProps Button.constructor].
    rewrite propsSpread_two_lookup. unfold Button.sanitizeChildProps at 1.
    rewrite omit_lookup.
    destruct (decide (k ∈ Button.omitted)) as [Hin|Hout]; [reflexivity|].
    rewrite ownAttributes_outside by exact Hout.
    destruct (properties !! k); reflexivity. }
  split; [apply omit_lookup|].
  split.
  { unfold Placeholder.render.
    cbn [attributes Placeholder.childProps Placeholder.constructor].
    rewrite propsSpread_two_lookup. unfold Placeholder.sanitizeChildProps at 1.
    rewrite omit_lookup.
    destruct (decide (j ∈ Placeholder.omitted)) as [Hin|Hout]; [reflexivity|].
    unfold Placeholder.ownAttributes. rewrite lookup_singleton_ne
      by (intros <-; apply Hout; compute_done).
    destruct (properties !! j); reflexivity. }
  split; [compute_done|].
  split; [compute_done|].
  split; [compute_done|].
  split; [reflexivity|].
  split; split; reflexivity.
Qed.

Lemma forwarded_props_are_props_without_denylist_witness :
  "type" ≠ "preventFocusStyleForTouchAndClick"
  ∧ Button.sanitizeChildProps
      (<["type" := JStr "submit"]> (<["primary" := JBool true]> ∅)) !! "type"
    = (if decide ("type" ∈ Button.omitted) then None
       else (<["type" := JStr "submit"]> (<["primary" := JBool true]> ∅) : Props)
            !! "type").
Proof.
  split; [discriminate|].
  apply (forwarded_props_are_props_without_denylist Sample.buttonStyle
           Sample.buttonConfig Sample.has Sample.unionClassNames
           Sample.placeholderStyle
           (<["type" := JStr "submit"]> (<["primary" := JBool true]> ∅)) ∅
           (Sample.mountedButton ∅) (Placeholder.constructor ∅) "type" "style").
  discriminate.
Defined.

(** * Further properties of the code *)

(** ** Props arriving *)

(** X1.  [componentWillReceiveProps] derives [childProps] and
    [preventFocusStyleForTouchAndClick] from the new props as the
    constructor does from the first ones, and leaves [active], [focused],
    [mouseDownOnButton], the style-id and [this.props] as they are; calling
    it again with the same props changes nothing more. *)
Theorem receiving_props_rederives_what_the_constructor_derives
    (style : ButtonStyle.t) (config : ButtonConfig.t)
    (has : Props → string → bool) (properties : Props) (this : Button.t) :
  let received :=
    after (Button.componentWillReceiveProps style config has properties) this in
  (Button.childProps received
   = Button.childProps (Button.constructor config has properties)
   ∧ Button.preventFocusStyleForTouchAndClick received
     = Button.preventFocusStyleForTouchAndClick
         (Button.constructor config has properties))
  ∧ (Button.active received = Button.active this
     ∧ Button.focused received = Button.focused this
     ∧ Button.mouseDownOnButton received = Button.mouseDownOnButton this
     ∧ Button.styleId received = Button.styleId this
     ∧ Button.props received = Button.props this)
  ∧ after (Button.componentWillReceiveProps style config has properties) received
    = received.
Proof.
  cbv zeta.
  unfold after, Button.componentWillReceiveProps, Button.setState_childProps,
    Button.updatePseudoClassStyle, bind, self, assign, emit.
  cbn. repeat split; reflexivity.
Qed.

(** ** Losing the focus *)

(** X2.  After a blur the Button is at rest: [_onBlur] lowers [focused] and
    [active] and asks for a render, that render runs the disabled block or
    the plain one, never the active or the focus block, and after it
    [mouseDownOnButton] is down too. *)
Theorem blur_puts_the_button_at_rest
    (style : ButtonStyle.t) (config : ButtonConfig.t)
    (has : Props → string → bool) (unionClassNames : jsval → jsval → jsval)
    (this : Button.t) (e : FocusEvent) :
  ∃ this' effects r,
    Button.step style config has unionClassNames (Button.Dom (Button.Blur e)) this
    = (this', effects, Some r)
    ∧ (Button.active this' = false
       ∧ Button.focused this' = false
       ∧ Button.mouseDownOnButton this' = false)
    ∧ Button.branch (Button.seen r)
      = (if truthy (prop (Button.props this) "disabled")
         then Button.DisabledBranch else Button.PlainBranch)
    ∧ Button.buttonStyle style (Button.seen r)
      = objectSpread
          (baseLayers style this
           ++ branchLayers style this
                (if truthy (prop (Button.props this) "disabled")
                 then Button.DisabledBranch else Button.PlainBranch)).
Proof.
  unfold Button.step, Button.dispatch. rewrite onBlur_run.
  cbn [existsb Button.schedulesRender orb Button.renderAndCommit].
  eexists _, _, _. split; [reflexivity|].
  split; [repeat split; reflexivity|].
  cbn [Button.seen].
  assert (Button.branch (Button.set_active false (Button.set_focused false this))
          = if truthy (prop (Button.props this) "disabled")
            then Button.DisabledBranch else Button.PlainBranch) as Hbranch.
  { unfold Button.branch. cbn. destruct (truthy _); reflexivity. }
  split; [exact Hbranch|].
  rewrite buttonStyle_branch, Hbranch. reflexivity.
Qed.

(** ** What the handlers leave alone *)

Section Frame.
Context (style : ButtonStyle.t) (config : ButtonConfig.t).
Context (has : Props → string → bool).
Context (unionClassNames : jsval → jsval → jsval).

Lemma dispatch_frame (ev : Button.DomEvent) (this : Button.t) :
  sameDerived (after (Button.dispatch ev) this) this.
Proof.
  unfold after, sameDerived.
  destruct ev as [e|e|e|e|e|e]; unfold Button.dispatch.
  - rewrite onTouchStart_run. cbn [fst snd].
    destruct (negb (truthy (prop (Button.props this) "disabled"))
              && (length (touches e) =? 1)%nat); repeat split; reflexivity.
  - rewrite onTouchEnd_run. repeat split; reflexivity.
  - rewrite onTouchCancel_run. repeat split; reflexivity.
  - rewrite onFocus_run. repeat split; reflexivity.
  - rewrite onBlur_run. repeat split; reflexivity.
  - rewrite onMouseDown_run. cbn [fst snd].
    destruct ((button e =? 0)%Z
              && negb (truthy (prop (Button.props this) "disabled")));
      repeat split; reflexivity.
Qed.

Lemma step_Dom_frame (ev : Button.DomEvent) (this : Button.t) :
  sameDerived
    (Button.step style config has unionClassNames (Button.Dom ev) this).1.1 this
  ∧ match (Button.step style config has unionClassNames (Button.Dom ev) this).2 with
    | Some r => Button.seen r = after (Button.dispatch ev) this
    | None => True
    end.
Proof.
  pose proof (dispatch_frame ev this) as Hframe.
  unfold after in *. unfold Button.step.
  destruct (Button.dispatch ev this) as [[u this1] effects].
  cbn [fst snd] in *.
  destruct (existsb Button.schedulesRender effects); cbn [fst snd].
  - split; [|reflexivity].
    destruct Hframe as (H1 & H2 & H3 & H4).
    unfold sameDerived. cbn. repeat split; assumption.
  - split; [exact Hframe | exact I].
Qed.

End Frame.

(** X3.  No event handler writes [this.props], [childProps], the style-id
    or [preventFocusStyleForTouchAndClick]: through any run of events of the
    native element, with the renders they bring, these fields stay as they
    were. *)
Theorem events_leave_derived_fields
    (style : ButtonStyle.t) (config : ButtonConfig.t)
    (has : Props → string → bool) (unionClassNames : jsval → jsval → jsval)
    (actions : list Button.Action) (this : Button.t) :
  forallb isDom actions = true →
  sameDerived (Button.run style config has unionClassNames actions this).1.1 this
  ∧ Forall (λ r, sameDerived (Button.seen r) this)
      (Button.run style config has unionClassNames actions this).2.
Proof.
  revert this. induction actions as [|a actions IH]; intros this Hdom.
  - cbn. split; [repeat split; reflexivity | constructor].
  - cbn [forallb] in Hdom. apply andb_prop in Hdom as [Ha Hrest].
    destruct a as [properties|ev]; [discriminate Ha|].
    destruct (step_Dom_frame style config has unionClassNames ev this)
      as [Hstep Hseen].
    pose proof (dispatch_frame ev this) as Hdispatch.
    cbn [Button.run].
    destruct (Button.step style config has unionClassNames (Button.Dom ev) this)
      as [[this1 effects1] r].
    cbn [fst snd] in Hstep, Hseen.
    destruct (IH this1 Hrest) as [Hfinal Hall].
    destruct (Button.run style config has unionClassNames actions this1)
      as [[this2 effects2] rs].
    cbn [fst snd] in *.
    assert (∀ x, sameDerived x this1 → sameDerived x this) as Htrans.
    { intros x (H1 & H2 & H3 & H4). destruct Hstep as (G1 & G2 & G3 & G4).
      unfold sameDerived. repeat split; congruence. }
    split; [apply Htrans, Hfinal|].
    apply Forall_app. split.
    + destruct r as [r|]; cbn [option_list]; [|constructor].
      constructor; [|constructor]. rewrite Hseen. exact Hdispatch.
    + eapply Forall_impl; [exact Hall|]. intros r' Hr. apply Htrans, Hr.
Qed.

Lemma events_leave_derived_fields_witness :
  sameDerived
    (Button.run Sample.buttonStyle Sample.buttonConfig Sample.has
       Sample.unionClassNames
       [Button.Dom (Button.MouseDown Sample.press);
        Button.Dom (Button.Focus Sample.focus);
        Button.Dom (Button.TouchStart Sample.touch)]
       (Sample.mountedButton Sample.flagProps)).1.1
    (Sample.mountedButton Sample.flagProps).
Proof.
  apply (events_leave_derived_fields Sample.buttonStyle Sample.buttonConfig
           Sample.has Sample.unionClassNames
           [Button.Dom (Button.MouseDown Sample.press);
            Button.Dom (Button.Focus Sample.focus);
            Button.Dom (Button.TouchStart Sample.touch)]
           (Sample.mountedButton Sample.flagProps)).
  reflexivity.
Defined.

(** ** The caller's callbacks and the renders asked for *)

Lemma callIfGiven_shape (this : Button.t) (name : string) (e : Event) :
  (length (callIfGiven this name e) ≤ 1)%nat
  ∧ Forall
      (λ c, ∃ name,
         c = CallProp name (prop (Button.props this) name) e
         ∧ truthy (prop (Button.props this) name) = true)
      (callIfGiven this name e).
Proof.
  unfold callIfGiven.
  destruct (truthy (prop (Button.props this) name)) eqn:Hgiven; cbn [length].
  - split; [lia|]. constructor; [|constructor]. exists name. split; [reflexivity|exact Hgiven].
  - split; [lia | constructor].
Qed.

(** X4.  Every handler calls at most one callback of the caller, as the
    last thing it does, with the event it was given; the callback is a prop
    that is set (truthy), looked up in [this.props] under the name it is
    called by.  What comes before in the log is no callback. *)
Theorem handlers_call_one_callback_last (ev : Button.DomEvent) (this : Button.t) :
  ∃ before calls,
    log (Button.dispatch ev) this = before ++ calls
    ∧ forallb (λ e, negb (isCall e)) before = true
    ∧ (length calls ≤ 1)%nat
    ∧ Forall
        (λ c, ∃ name,
           c = CallProp name (prop (Button.props this) name) (eventOf ev)
           ∧ truthy (prop (Button.props this) name) = true)
        calls.
Proof.
  unfold log.
  destruct ev as [e|e|e|e|e|e]; unfold Button.dispatch, eventOf.
  - rewrite onTouchStart_run. cbn [snd].
    eexists _, _. split; [reflexivity|].
    split; [destruct (negb _ && _); reflexivity|]. apply callIfGiven_shape.
  - rewrite onTouchEnd_run. cbn [snd].
    exists [SetState "active"], (callIfGiven this "onTouchEnd" (ETouch e)).
    split; [reflexivity|]. split; [reflexivity|]. apply callIfGiven_shape.
  - rewrite onTouchCancel_run. cbn [snd].
    exists [SetState "active"], (callIfGiven this "onTouchEnd" (ETouch e)).
    split; [reflexivity|]. split; [reflexivity|]. apply callIfGiven_shape.
  - rewrite onFocus_run. cbn [snd].
    exists [ForceUpdate], (callIfGiven this "onFocus" (EFocus e)).
    split; [reflexivity|]. split; [reflexivity|]. apply callIfGiven_shape.
  - rewrite onBlur_run. cbn [snd].
    exists [SetState "active"], (callIfGiven this "onBlur" (EFocus e)).
    split; [reflexivity|]. split; [reflexivity|]. apply callIfGiven_shape.
  - rewrite onMouseDown_run. cbn [snd].
    exists [], (callIfGiven this "onMouseDown" (EMouse e)).
    split; [reflexivity|]. split; [reflexivity|]. apply callIfGiven_shape.
Qed.

(** X5.  Which actions bring a render: new props always; the focus, blur,
    touchEnd and touchCancel events always; a touchStart only when it sets
    [active] (the Button not disabled, one touch point); a mouseDown never.
    The render sees the instance as the handler left it. *)
Theorem which_events_render
    (style : ButtonStyle.t) (config : ButtonConfig.t)
    (has : Props → string → bool) (unionClassNames : jsval → jsval → jsval)
    (ev : Button.DomEvent) (properties : Props) (this : Button.t) :
  (Button.step style config has unionClassNames (Button.Dom ev) this).2
  = (if match ev with
        | Button.MouseDown _ => false
        | Button.TouchStart e =>
            negb (truthy (prop (Button.props this) "disabled"))
            && (length (touches e) =? 1)%nat
        | _ => true
        end
     then Some {| Button.seen := after (Button.dispatch ev) this;
                  Button.element :=
                    Button.render style unionClassNames
                      (after (Button.dispatch ev) this) |}
     else None)
  ∧ (Button.step style config has unionClassNames (Button.Receive properties) this).2
    = Some {| Button.seen :=
                Button.set_props properties
                  (after (Button.componentWillReceiveProps style config has
                            properties) this);
              Button.element :=
                Button.render style unionClassNames
                  (Button.set_props properties
                     (after (Button.componentWillReceiveProps style config has
                               properties) this)) |}.
Proof.
  split.
  - unfold after.
    destruct ev as [e|e|e|e|e|e]; unfold Button.step, Button.dispatch.
    + rewrite onTouchStart_run. cbn [fst snd].
      destruct (negb (truthy (prop (Button.props this) "disabled"))
                && (length (touches e) =? 1)%nat);
        cbn [app existsb Button.schedulesRender orb]; [reflexivity|].
      rewrite callIfGiven_schedules_nothing. reflexivity.
    + rewrite onTouchEnd_run. reflexivity.
    + rewrite onTouchCancel_run. reflexivity.
    + rewrite onFocus_run. reflexivity.
    + rewrite onBlur_run. reflexivity.
    + rewrite onMouseDown_run. rewrite callIfGiven_schedules_nothing. reflexivity.
  - unfold after, Button.step, Button.componentWillReceiveProps,
      Button.setState_childProps, Button.updatePseudoClassStyle, bind, self,
      assign, emit.
    reflexivity.
Qed.

(** X6.  On a disabled Button the mouseDown and touchStart handlers leave
    the instance as it is and ask for no render, and they still call the
    caller's callback; the focus handler has no such guard: it raises
    [focused] and forces a render all the same. *)
Theorem disabled_button_ignores_press_and_touch
    (this : Button.t) (press : MouseEvent) (touch : TouchEvent)
    (focus : FocusEvent) :
  truthy (prop (Button.props this) "disabled") = true →
  Button._onMouseDown press this
  = (tt, this, callIfGiven this "onMouseDown" (EMouse press))
  ∧ Button._onTouchStart touch this
    = (tt, this, callIfGiven this "onTouchStart" (ETouch touch))
  ∧ existsb Button.schedulesRender (log (Button._onMouseDown press) this) = false
  ∧ existsb Button.schedulesRender (log (Button._onTouchStart touch) this) = false
  ∧ Button._onFocus focus this
    = (tt, Button.set_focused true this,
       ForceUpdate :: callIfGiven this "onFocus" (EFocus focus)).
Proof.
  intros Hdisabled. unfold log.
  rewrite onMouseDown_run, onTouchStart_run, onFocus_run, Hdisabled.
  rewrite andb_false_r. cbn [negb andb app snd].
  rewrite !callIfGiven_schedules_nothing. repeat split; reflexivity.
Qed.

Lemma disabled_button_ignores_press_and_touch_witness :
  truthy (prop (Button.props (Sample.mountedButton Sample.disabledProps)) "disabled")
  = true
  ∧ Button._onMouseDown Sample.press (Sample.mountedButton Sample.disabledProps)
    = (tt, Sample.mountedButton Sample.disabledProps,
       callIfGiven (Sample.mountedButton Sample.disabledProps) "onMouseDown"
         (EMouse Sample.press)).
Proof.
  split; [reflexivity|].
  apply (disabled_button_ignores_press_and_touch
           (Sample.mountedButton Sample.disabledProps) Sample.press Sample.touch
           Sample.focus).
  reflexivity.
Defined.

(** ** The style-id *)

Lemma append_cons (c : ascii) (s t : string) :
  String c s +:+ t = String c (s +:+ t).
Proof. reflexivity. Qed.

Lemma append_nil (t : string) : EmptyString +:+ t = t.
Proof. reflexivity. Qed.

Lemma replaceDots_length (s : string) :
  String.length (replaceDots s) = String.length s.
Proof. induction s as [|c s IH]; cbn; [reflexivity | rewrite IH; reflexivity]. Qed.

Lemma replaceDots_no_dot (s : string) : occurs "."%char (replaceDots s) = false.
Proof.
  induction s as [|c s IH]; cbn [replaceDots occurs]; [reflexivity|].
  rewrite IH, orb_false_r.
  destruct (Ascii.eqb c "."%char) eqn:Hc; [reflexivity | exact Hc].
Qed.

Lemma replaceDots_fixes_dotless (s : string) :
  occurs "."%char s = false → replaceDots s = s.
Proof.
  induction s as [|c s IH]; cbn [replaceDots occurs]; [reflexivity|].
  intros Hno. apply orb_false_elim in Hno as [Hc Hrest].
  rewrite Hc, (IH Hrest). reflexivity.
Qed.

Lemma replaceDots_injective (a b : string) :
  occurs "-"%char a = false →
  occurs "-"%char b = false →
  replaceDots a = replaceDots b →
  a = b.
Proof.
  revert b. induction a as [|c a IH]; intros [|d b]; cbn [replaceDots occurs];
    try discriminate; [reflexivity|].
  intros Ha Hb Heq.
  apply orb_false_elim in Ha as [Hc Ha]. apply orb_false_elim in Hb as [Hd Hb].
  injection Heq as Hhead Htail. rewrite (IH b Ha Hb Htail). f_equal.
  destruct (Ascii.eqb_spec c "."%char) as [->|Hcdot],
           (Ascii.eqb_spec d "."%char) as [->|Hddot].
  - reflexivity.
  - subst d. rewrite Ascii.eqb_refl in Hd. discriminate Hd.
  - subst c. rewrite Ascii.eqb_refl in Hc. discriminate Hc.
  - exact Hhead.
Qed.

(** X7.  [componentWillMount] sets the style-id to ['style-id'] followed by
    the root node id with every dot replaced by a hyphen: the id has no dot
    left, so it can stand in a class selector, it is as long as the root
    node id and eight more, and a root node id without dots is taken as it
    is.  The rules injected at mounting are under that id. *)
Theorem style_id_has_no_dot
    (style : ButtonStyle.t) (rootNodeID : string) (this : Button.t) :
  Button.styleId (after (Button.componentWillMount style rootNodeID) this)
  = JStr ("style-id" +:+ replaceDots rootNodeID)
  ∧ occurs "."%char ("style-id" +:+ replaceDots rootNodeID) = false
  ∧ String.length ("style-id" +:+ replaceDots rootNodeID)
    = (8 + String.length rootNodeID)%nat
  ∧ replaceDots (replaceDots rootNodeID) = replaceDots rootNodeID
  ∧ (∃ rules,
       log (Button.componentWillMount style rootNodeID) this = [InjectStyles rules]
       ∧ Forall (λ r, Rule.id r = JStr ("style-id" +:+ replaceDots rootNodeID))
           rules).
Proof.
  split; [reflexivity|].
  split; [rewrite !append_cons, append_nil; apply replaceDots_no_dot|].
  split; [rewrite !append_cons, append_nil; cbn [String.length];
          rewrite replaceDots_length; reflexivity|].
  split; [apply replaceDots_fixes_dotless, replaceDots_no_dot|].
  unfold log, Button.componentWillMount, Button.updatePseudoClassStyle, bind,
    self, assign, emit.
  cbn. eexists. split; [reflexivity|]. repeat constructor.
Qed.

(** X8.  Two root node ids without hyphens that differ give style-ids that
    differ; with hyphens allowed they need not: ['.a'] and ['-a'] give the
    same style-id. *)
Theorem style_ids_differ_for_hyphenless_root_ids
    (style : ButtonStyle.t) (a b : string) (this that : Button.t) :
  (occurs "-"%char a = false →
   occurs "-"%char b = false →
   Button.styleId (after (Button.componentWillMount style a) this)
   = Button.styleId (after (Button.componentWillMount style b) that) →
   a = b)
  ∧ Button.styleId (after (Button.componentWillMount style ".a") this)
    = Button.styleId (after (Button.componentWillMount style "-a") that).
Proof.
  split; [|reflexivity].
  intros Ha Hb Heq.
  change (JStr ("style-id" +:+ replaceDots a) = JStr ("style-id" +:+ replaceDots b))
    in Heq.
  rewrite !append_cons, !append_nil in Heq. injection Heq as Heq.
  apply (replaceDots_injective a b Ha Hb Heq).
Qed.

Lemma style_ids_differ_for_hyphenless_root_ids_witness :
  occurs "-"%char ".0.1" = false
  ∧ occurs "-"%char ".0.1" = false
  ∧ ".0.1" = ".0.1".
Proof.
  split; [reflexivity|]. split; [reflexivity|].
  apply (style_ids_differ_for_hyphenless_root_ids Sample.buttonStyle ".0.1" ".0.1"
           (Sample.mountedButton ∅) (Sample.mountedButton Sample.disabledProps));
    reflexivity.
Defined.

(** ** Who wins in the inline style *)

Lemma laterWins_is_Some (layers : list Style) (k : string) :
  is_Some (Spec.laterWins layers k) ↔ Exists (λ layer, is_Some (layer !! k)) layers.
Proof.
  induction layers as [|layer layers IH] using rev_ind.
  - split; [intros [v Hv]; discriminate Hv | intros H; inversion H].
  - rewrite laterWins_snoc, Exists_app, Exists_cons, Exists_nil.
    destruct (layer !! k) as [v|] eqn:Hk.
    + split; [intros _; right; left; eexists; reflexivity | intros _; eexists; reflexivity].
    + rewrite IH. split; [intros H; left; exact H|].
      intros [H|[[v Hv]|[]]]; [exact H | discriminate Hv].
Qed.

(** The layers of a render with the last one apart: the last one is the
    caller's override of the block that runs. *)
Lemma layers_end_with_override (style : ButtonStyle.t) (this : Button.t) :
  ∃ front,
    baseLayers style this ++ branchLayers style this (Button.branch this)
    = front ++ [ownProps (prop (Button.props this)
                            (branchOverride (Button.branch this)))]
    ∧ (Button.branch this ≠ Button.PlainBranch →
       front = baseLayers style this
               ++ [branchTable style (prop (Button.props this) "primary")
                     (Button.branch this)]).
Proof.
  destruct (Button.branch this) eqn:Hb.
  - exists (baseLayers style this
            ++ [branchTable style (prop (Button.props this) "primary")
                  Button.DisabledBranch]).
    split; [rewrite <- app_assoc; reflexivity | reflexivity].
  - exists (baseLayers style this
            ++ [branchTable style (prop (Button.props this) "primary")
                  Button.ActiveBranch]).
    split; [rewrite <- app_assoc; reflexivity | reflexivity].
  - exists (baseLayers style this
            ++ [branchTable style (prop (Button.props this) "primary")
                  Button.FocusBranch]).
    split; [rewrite <- app_assoc; reflexivity | reflexivity].
  - exists [Spec.variant (prop (Button.props this) "primary")
              (ButtonStyle.primaryStyle style) (ButtonStyle.style style)].
    split; [reflexivity|]. intros H. contradiction H; reflexivity.
Qed.

(** X9.  The caller's override for the state that is rendered always wins:
    a property that it defines has its value in the inline style, whatever
    the table and the caller's other style props say.  The override is
    [disabledStyle], [activeStyle] or [focusStyle] in those blocks and
    [style] in the plain one. *)
Theorem override_of_the_rendered_state_wins
    (style : ButtonStyle.t) (this : Button.t) (k : string) (v : sval) :
  ownProps (prop (Button.props this) (branchOverride (Button.branch this))) !! k
  = Some v →
  Button.buttonStyle style this !! k = Some v.
Proof.
  intros Hk. rewrite buttonStyle_branch, objectSpread_lookup.
  destruct (layers_end_with_override style this) as (front & -> & _).
  rewrite laterWins_snoc, Hk. reflexivity.
Qed.

Lemma override_of_the_rendered_state_wins_witness :
  Button.buttonStyle Sample.buttonStyle
    (Sample.mountedButton
       (<["disabledStyle" := JObj (Sample.one "opacity" "none")]>
          Sample.disabledProps)) !! "opacity"
  = Some (SStr "none").
Proof.
  apply (override_of_the_rendered_state_wins Sample.buttonStyle
           (Sample.mountedButton
              (<["disabledStyle" := JObj (Sample.one "opacity" "none")]>
                 Sample.disabledProps)) "opacity" (SStr "none")).
  reflexivity.
Defined.

(** X10.  In the disabled, active and focus blocks the table's style for
    the state is spread after the caller's [style]: a property that the
    table's state style defines keeps the table's value unless the caller's
    override for that state defines it too; the caller's [style] cannot
    change it. *)
Theorem table_state_style_beats_callers_style
    (style : ButtonStyle.t) (this : Button.t) (k : string) (v : sval) :
  Button.branch this ≠ Button.PlainBranch →
  branchTable style (prop (Button.props this) "primary") (Button.branch this) !! k
  = Some v →
  ownProps (prop (Button.props this) (branchOverride (Button.branch this))) !! k
  = None →
  Button.buttonStyle style this !! k = Some v.
Proof.
  intros Hb Htable Hover. rewrite buttonStyle_branch, objectSpread_lookup.
  destruct (layers_end_with_override style this) as (front & -> & Hfront).
  rewrite laterWins_snoc, Hover, (Hfront Hb), laterWins_snoc, Htable.
  reflexivity.
Qed.

Lemma table_state_style_beats_callers_style_witness :
  Button.buttonStyle Sample.buttonStyle
    (Sample.mountedButton
       (<["style" := JObj (Sample.one "opacity" "full")]> Sample.disabledProps))
    !! "opacity"
  = Some (SStr "half").
Proof.
  apply (table_state_style_beats_callers_style Sample.buttonStyle
           (Sample.mountedButton
              (<["style" := JObj (Sample.one "opacity" "full")]>
                 Sample.disabledProps)) "opacity" (SStr "half"));
    [discriminate | reflexivity | reflexivity].
Defined.

(** X11.  No layer takes a property away: the inline style defines a
    property exactly when the variant's base style, the caller's [style] or
    one of the two layers of the block that runs defines it. *)
Theorem inline_style_defines_what_some_layer_defines
    (style : ButtonStyle.t) (this : Button.t) (k : string) :
  is_Some (Button.buttonStyle style this !! k)
  ↔ Exists (λ layer, is_Some (layer !! k))
      (baseLayers style this ++ branchLayers style this (Button.branch this)).
Proof.
  rewrite buttonStyle_branch, objectSpread_lookup. apply laterWins_is_Some.
Qed.

Lemma ownProps_absent (p : Props) (k : string) :
  p !! k = None → ownProps (prop p k) = ∅.
Proof. intros Hk. unfold prop. rewrite Hk. reflexivity. Qed.

(** X12.  A Button given none of the style props is styled by the table
    alone: without [style] and without the override of the state that is
    rendered, the inline style is the variant's base style with the table's
    style for that state spread over it, and in the plain block it is the
    variant's base style itself. *)
Theorem without_overrides_the_table_styles_the_button
    (style : ButtonStyle.t) (this : Button.t) :
  Button.props this !! "style" = None →
  Button.props this !! branchOverride (Button.branch this) = None →
  Button.buttonStyle style this
  = objectSpread
      [ if truthy (prop (Button.props this) "primary")
        then ButtonStyle.primaryStyle style else ButtonStyle.style style;
        branchTable style (prop (Button.props this) "primary") (Button.branch this) ]
  ∧ (Button.branch this = Button.PlainBranch →
     Button.buttonStyle style this
     = if truthy (prop (Button.props this) "primary")
       then ButtonStyle.primaryStyle style else ButtonStyle.style style).
Proof.
  intros Hstyle Hover.
  assert (Button.buttonStyle style this
          = objectSpread
              [ if truthy (prop (Button.props this) "primary")
                then ButtonStyle.primaryStyle style else ButtonStyle.style style;
                branchTable style (prop (Button.props this) "primary")
                  (Button.branch this) ]) as Hmain.
  { rewrite buttonStyle_branch.
    unfold baseLayers, Spec.override, Spec.variant.
    rewrite (ownProps_absent _ _ Hstyle).
    destruct (Button.branch this) eqn:Hb;
      cbn [branchLayers branchOverride branchTable app] in *;
      unfold Spec.override, Spec.variant;
      rewrite ?(ownProps_absent _ _ Hover);
      apply map_eq; intros j; rewrite !objectSpread_lookup;
      unfold Spec.laterWins; cbn; rewrite ?lookup_empty; reflexivity. }
  split; [exact Hmain|].
  intros Hplain. rewrite Hmain, Hplain. cbn [branchTable].
  apply map_eq. intros j. rewrite objectSpread_lookup.
  unfold Spec.laterWins. cbn. rewrite lookup_empty.
  destruct (_ !! j); reflexivity.
Qed.

Lemma without_overrides_the_table_styles_the_button_witness :
  Button.buttonStyle Sample.buttonStyle (Sample.mountedButton ∅)
  = objectSpread
      [ ButtonStyle.style Sample.buttonStyle;
        branchTable Sample.buttonStyle JUndefined Button.PlainBranch ].
Proof.
  destruct (without_overrides_the_table_styles_the_button Sample.buttonStyle
              (Sample.mountedButton ∅)) as [Hmain _];
    [reflexivity | reflexivity | exact Hmain].
Defined.

(** ** The injected rules and the inline style *)

(** X13.  The rules injected for the props of an instance layer the same
    styles as [render] does inline: the [active] rule is the spread of the
    two layers of the active block, used inline while a touch is down; and
    when [preventFocusStyleForTouchAndClick] is not set (falsy), the
    [focus] rule is the spread of the two layers of the focus block, which
    [render] then never runs. *)
Theorem injected_rules_layer_what_render_layers
    (style : ButtonStyle.t) (styleId : jsval) (this : Button.t) :
  ∃ hover active disabledHover focus,
    log (Button.updatePseudoClassStyle style styleId (Button.props this)
           (Button.preventFocusStyleForTouchAndClick this)) this
    = [InjectStyles [hover; active; disabledHover; focus]]
    ∧ Rule.style active = objectSpread (branchLayers style this Button.ActiveBranch)
    ∧ (truthy (Button.preventFocusStyleForTouchAndClick this) = false →
       Rule.style focus = objectSpread (branchLayers style this Button.FocusBranch)
       ∧ Button.branch this ≠ Button.FocusBranch).
Proof.
  unfold log, Button.updatePseudoClassStyle, emit. cbn [snd].
  eexists _, _, _, _. split; [reflexivity|]. cbn [Rule.style].
  split; [reflexivity|].
  intros Hflag. rewrite Hflag. split; [reflexivity|].
  unfold Button.branch. rewrite Hflag, !andb_false_r.
  destruct (truthy (prop (Button.props this) "disabled")); [discriminate|].
  destruct (Button.active this); cbn; discriminate.
Qed.

Lemma injected_rules_layer_what_render_layers_witness :
  Button.branch
    (Button.set_preventFocusStyleForTouchAndClick (JBool false)
       (Sample.focusedButton ∅))
  ≠ Button.FocusBranch.
Proof.
  destruct (injected_rules_layer_what_render_layers Sample.buttonStyle
              (JStr "style-id-0")
              (Button.set_preventFocusStyleForTouchAndClick (JBool false)
                 (Sample.focusedButton ∅)))
    as (hover & active & disabledHover & focus & _ & _ & Hfocus).
  apply Hfocus. reflexivity.
Defined.



(** ** Pointer and keyboard *)

(** X15.  Only the primary mouse button counts as a press: on a Button at
    rest that is not disabled and has the flag set, a mouseDown of another
    button followed by the focus renders the one-time focus style, as a
    focus from the keyboard does. *)
Theorem other_mouse_buttons_do_not_suppress_focus_style
    (style : ButtonStyle.t) (config : ButtonConfig.t)
    (has : Props → string → bool) (unionClassNames : jsval → jsval → jsval)
    (this : Button.t) (press : MouseEvent) (focus : FocusEvent) :
  button press ≠ 0%Z →
  truthy (prop (Button.props this) "disabled") = false →
  Button.active this = false →
  Button.mouseDownOnButton this = false →
  truthy (Button.preventFocusStyleForTouchAndClick this) = true →
  ∃ this' effects r,
    Button.run style config has unionClassNames
      [Button.Dom (Button.MouseDown press); Button.Dom (Button.Focus focus)] this
    = (this', effects, [r])
    ∧ Button.branch (Button.seen r) = Button.FocusBranch
    ∧ Button.buttonStyle style (Button.seen r)
      = objectSpread
          (baseLayers style this ++ branchLayers style this Button.FocusBranch).
Proof.
  intros Hother Henabled Hactive Hpress Hflag. cbn [Button.run].
  apply Z.eqb_neq in Hother.
  rewrite step_MouseDown, Hother. cbn [andb].
  rewrite step_Focus. cbn [option_list app].
  eexists _, _, _. split; [reflexivity|]. cbn [Button.seen].
  assert (Button.branch (Button.set_focused true this) = Button.FocusBranch)
    as Hbranch.
  { unfold Button.branch. cbn. rewrite Henabled, Hactive, Hpress, Hflag.
    reflexivity. }
  split; [exact Hbranch|].
  rewrite buttonStyle_branch, Hbranch. reflexivity.
Qed.

Lemma other_mouse_buttons_do_not_suppress_focus_style_witness :
  ∃ this' effects r,
    Button.run Sample.buttonStyle Sample.buttonConfig Sample.has
      Sample.unionClassNames
      [Button.Dom (Button.MouseDown {| button := 2 |});
       Button.Dom (Button.Focus Sample.focus)] (Sample.mountedButton ∅)
    = (this', effects, [r])
    ∧ Button.branch (Button.seen r) = Button.FocusBranch.
Proof.
  destruct (other_mouse_buttons_do_not_suppress_focus_style Sample.buttonStyle
              Sample.buttonConfig Sample.has Sample.unionClassNames
              (Sample.mountedButton ∅) {| button := 2 |} Sample.focus)
    as (this' & effects & r & Hrun & Hbranch & _);
    [discriminate | reflexivity | reflexivity | reflexivity | reflexivity |].
  exists this', effects, r. split; assumption.
Defined.

(** ** Invariants of the lifecycle *)

Section Invariants.
Context (style : ButtonStyle.t) (config : ButtonConfig.t).
Context (has : Props → string → bool).
Context (unionClassNames : jsval → jsval → jsval).

Lemma sameDerived_inSync (a b : Button.t) :
  sameDerived a b → inSync config has b → inSync config has a.
Proof.
  intros (Hp & Hc & Hf & _) [Hchild Hflag]. unfold inSync.
  rewrite Hp, Hc, Hf. split; assumption.
Qed.

Lemma step_inSync (a : Button.Action) (this : Button.t) :
  inSync config has this →
  inSync config has (Button.step style config has unionClassNames a this).1.1
  ∧ match (Button.step style config has unionClassNames a this).2 with
    | Some r => inSync config has (Button.seen r)
    | None => True
    end.
Proof.
  intros Hsync. destruct a as [properties|ev].
  - unfold Button.step, Button.componentWillReceiveProps,
      Button.setState_childProps, Button.updatePseudoClassStyle, bind, self,
      assign, emit.
    cbn. split; split; reflexivity.
  - destruct (step_Dom_frame style config has unionClassNames ev this)
      as [Hframe Hseen].
    split; [apply (sameDerived_inSync _ this Hframe Hsync)|].
    destruct (Button.step style config has unionClassNames (Button.Dom ev) this).2
      as [r|]; [|exact I].
    rewrite Hseen. apply (sameDerived_inSync _ this (dispatch_frame ev this) Hsync).
Qed.

Lemma run_inSync (actions : list Button.Action) (this : Button.t) :
  inSync config has this →
  inSync config has (Button.run style config has unionClassNames actions this).1.1
  ∧ Forall (λ r, inSync config has (Button.seen r))
      (Button.run style config has unionClassNames actions this).2.
Proof.
  revert this. induction actions as [|a actions IH]; intros this Hsync.
  - cbn. split; [exact Hsync | constructor].
  - destruct (step_inSync a this Hsync) as [Hnext Hseen].
    cbn [Button.run].
    destruct (Button.step style config has unionClassNames a this)
      as [[this1 effects1] r].
    cbn [fst snd] in Hnext, Hseen.
    destruct (IH this1 Hnext) as [Hfinal Hall].
    destruct (Button.run style config has unionClassNames actions this1)
      as [[this2 effects2] rs].
    cbn [fst snd] in *. split; [exact Hfinal|].
    destruct r as [r|]; cbn [option_list app]; [|exact Hall].
    constructor; assumption.
Qed.

Lemma branch_inactive (this : Button.t) :
  Button.active this = false → Button.branch this ≠ Button.ActiveBranch.
Proof.
  intros Ha. unfold Button.branch. rewrite Ha.
  destruct (truthy (prop (Button.props this) "disabled")); [discriminate|].
  destruct (Button.focused this && negb false
            && negb (Button.mouseDownOnButton this)
            && truthy (Button.preventFocusStyleForTouchAndClick this));
    discriminate.
Qed.

Lemma step_keeps_inactive (a : Button.Action) (this : Button.t) :
  isTouchStart a = false →
  Button.active this = false →
  Button.active (Button.step style config has unionClassNames a this).1.1 = false
  ∧ match (Button.step style config has unionClassNames a this).2 with
    | Some r => Button.active (Button.seen r) = false
    | None => True
    end.
Proof.
  intros Ha Hactive. destruct a as [properties|ev].
  - unfold Button.step, Button.componentWillReceiveProps,
      Button.setState_childProps, Button.updatePseudoClassStyle, bind, self,
      assign, emit.
    cbn. split; exact Hactive.
  - destruct ev as [e|e|e|e|e|e]; try discriminate Ha;
      unfold Button.step, Button.dispatch.
    + rewrite onTouchEnd_run. cbn. split; reflexivity.
    + rewrite onTouchCancel_run. cbn. split; reflexivity.
    + rewrite onFocus_run. cbn. split; exact Hactive.
    + rewrite onBlur_run. cbn. split; reflexivity.
    + rewrite onMouseDown_run, callIfGiven_schedules_nothing.
      destruct ((button e =? 0)%Z
                && negb (truthy (prop (Button.props this) "disabled")));
        cbn; split; [exact Hactive | exact I | exact Hactive | exact I].
Qed.

End Invariants.

(** X16.  At every render the fields derived from the props are in step
    with [this.props]: mounting leaves [childProps] and
    [preventFocusStyleForTouchAndClick] as the constructor derives them from
    the props, and through any run of new props and events the instance
    that each render sees, and the final one, have them as the constructor
    would derive them from the props they have then. *)
Theorem derived_fields_follow_the_props
    (style : ButtonStyle.t) (config : ButtonConfig.t)
    (has : Props → string → bool) (unionClassNames : jsval → jsval → jsval)
    (rootNodeID : string) (properties : Props) (actions : list Button.Action) :
  let mounted :=
    Button.mount style config has unionClassNames rootNodeID properties in
  let ran := Button.run style config has unionClassNames actions mounted.1.1 in
  inSync config has mounted.1.1
  ∧ Button.seen mounted.2 = mounted.1.1
  ∧ inSync config has ran.1.1
  ∧ Forall
      (λ r,
         Button.childProps (Button.seen r)
         = Button.sanitizeChildProps (Button.props (Button.seen r))
         ∧ inSync config has (Button.seen r))
      ran.2.
Proof.
  intros mounted ran.
  assert (inSync config has mounted.1.1) as Hmounted by (split; reflexivity).
  destruct (run_inSync style config has unionClassNames actions mounted.1.1
              Hmounted) as [Hfinal Hall].
  split; [exact Hmounted|]. split; [reflexivity|]. split; [exact Hfinal|].
  eapply Forall_impl; [exact Hall|].
  intros r Hr. split; [apply Hr | exact Hr].
Qed.

(** X17.  Only a touchStart raises [active]: from an instance whose
    [active] is down, through any run of new props and events with no
    touchStart among them, [active] stays down and no render runs the
    active block. *)
Theorem only_touch_start_activates
    (style : ButtonStyle.t) (config : ButtonConfig.t)
    (has : Props → string → bool) (unionClassNames : jsval → jsval → jsval)
    (actions : list Button.Action) (this : Button.t) :
  forallb (λ a, negb (isTouchStart a)) actions = true →
  Button.active this = false →
  Button.active (Button.run style config has unionClassNames actions this).1.1
  = false
  ∧ Forall (λ r, Button.branch (Button.seen r) ≠ Button.ActiveBranch)
      (Button.run style config has unionClassNames actions this).2.
Proof.
  revert this. induction actions as [|a actions IH]; intros this Hno Hactive.
  - cbn. split; [exact Hactive | constructor].
  - cbn [forallb] in Hno. apply andb_prop in Hno as [Ha Hrest].
    apply negb_true_iff in Ha.
    destruct (step_keeps_inactive style config has unionClassNames a this Ha
                Hactive) as [Hnext Hseen].
    cbn [Button.run].
    destruct (Button.step style config has unionClassNames a this)
      as [[this1 effects1] r].
    cbn [fst snd] in Hnext, Hseen.
    destruct (IH this1 Hrest Hnext) as [Hfinal Hall].
    destruct (Button.run style config has unionClassNames actions this1)
      as [[this2 effects2] rs].
    cbn [fst snd] in *. split; [exact Hfinal|].
    destruct r as [r|]; cbn [option_list app]; [|exact Hall].
    constructor; [|exact Hall]. apply branch_inactive, Hseen.
Qed.

Lemma only_touch_start_activates_witness :
  Button.active
    (Button.run Sample.buttonStyle Sample.buttonConfig Sample.has
       Sample.unionClassNames
       [Button.Dom (Button.MouseDown Sample.press);
        Button.Dom (Button.Focus Sample.focus);
        Button.Receive Sample.disabledProps;
        Button.Dom (Button.TouchEnd Sample.touch)]
       (Sample.mountedButton ∅)).1.1
  = false.
Proof.
  apply (only_touch_start_activates Sample.buttonStyle Sample.buttonConfig
           Sample.has Sample.unionClassNames
           [Button.Dom (Button.MouseDown Sample.press);
            Button.Dom (Button.Focus Sample.focus);
            Button.Receive Sample.disabledProps;
            Button.Dom (Button.TouchEnd Sample.touch)]
           (Sample.mountedButton ∅));
    reflexivity.
Defined.

(** ** The calls on the style-injection service *)

(** X18.  No event handler calls [injectStyles] or [removeStyle]: the log
    of any run of events of the native element has neither. *)
Theorem events_never_call_the_style_service
    (style : ButtonStyle.t) (config : ButtonConfig.t)
    (has : Props → string → bool) (unionClassNames : jsval → jsval → jsval)
    (actions : list Button.Action) (this : Button.t) :
  forallb isDom actions = true →
  forallb Registry.elsewhere
    (Button.run style config has unionClassNames actions this).1.2 = true.
Proof.
  revert this. induction actions as [|a actions IH]; intros this Hdom.
  - reflexivity.
  - cbn [forallb] in Hdom. apply andb_prop in Hdom as [Ha Hrest].
    destruct a as [properties|ev]; [discriminate Ha|].
    destruct (dispatch_elsewhere ev this) as [Hlog _].
    cbn [Button.run]. unfold Button.step. unfold log in Hlog.
    destruct (Button.dispatch ev this) as [[u this1] effects1].
    cbn [snd] in Hlog.
    destruct (existsb Button.schedulesRender effects1).
    + cbn [Button.renderAndCommit].
      specialize (IH (after Button.componentDidUpdate this1) Hrest).
      destruct (Button.run style config has unionClassNames actions
                  (after Button.componentDidUpdate this1))
        as [[this2 effects2] rs].
      cbn [fst snd] in *. rewrite forallb_app, Hlog, IH. reflexivity.
    + specialize (IH this1 Hrest).
      destruct (Button.run style config has unionClassNames actions this1)
        as [[this2 effects2] rs].
      cbn [fst snd] in *. rewrite forallb_app, Hlog, IH. reflexivity.
Qed.

Lemma events_never_call_the_style_service_witness :
  forallb Registry.elsewhere
    (Button.run Sample.buttonStyle Sample.buttonConfig Sample.has
       Sample.unionClassNames
       [Button.Dom (Button.TouchStart Sample.touch);
        Button.Dom (Button.Blur Sample.focus)]
       (Sample.mountedButton ∅)).1.2 = true.
Proof.
  apply (events_never_call_the_style_service Sample.buttonStyle
           Sample.buttonConfig Sample.has Sample.unionClassNames
           [Button.Dom (Button.TouchStart Sample.touch);
            Button.Dom (Button.Blur Sample.focus)]
           (Sample.mountedButton ∅)).
  reflexivity.
Defined.

(** X19.  Props that bring nothing new change nothing: on an instance
    whose derived fields follow its props, [componentWillReceiveProps] with
    the props that the instance has leaves the instance as it is, and after
    [removeStyle] it injects the rules that [updatePseudoClassStyle] makes
    of the instance's own style-id, props and flag; so on a Button just
    mounted it injects the rules that mounting injected. *)
Theorem same_props_reinject_same_rules
    (style : ButtonStyle.t) (config : ButtonConfig.t)
    (has : Props → string → bool) (unionClassNames : jsval → jsval → jsval)
    (rootNodeID : string) (properties : Props) (this : Button.t) :
  (inSync config has this →
   after (Button.componentWillReceiveProps style config has (Button.props this))
     this = this
   ∧ log (Button.componentWillReceiveProps style config has (Button.props this))
       this
     = [SetState "childProps"; RemoveStyle (Button.styleId this)]
       ++ log (Button.updatePseudoClassStyle style (Button.styleId this)
                 (Button.props this)
                 (Button.preventFocusStyleForTouchAndClick this)) this)
  ∧ log (Button.componentWillReceiveProps style config has properties)
      (Button.mount style config has unionClassNames rootNodeID properties).1.1
    = [SetState "childProps";
       RemoveStyle (JStr ("style-id" +:+ replaceDots rootNodeID))]
      ++ (Button.mount style config has unionClassNames rootNodeID properties).1.2.
Proof.
  split; [|reflexivity].
  intros [Hchild Hflag].
  unfold after, log, Button.componentWillReceiveProps, Button.setState_childProps,
    Button.updatePseudoClassStyle, bind, self, assign, emit.
  cbn. cbn in Hchild, Hflag. rewrite <- Hflag, <- Hchild.
  split; [destruct this; reflexivity | reflexivity].
Qed.

Lemma same_props_reinject_same_rules_witness :
  inSync Sample.buttonConfig Sample.has (Sample.mountedButton Sample.flagProps)
  ∧ after (Button.componentWillReceiveProps Sample.buttonStyle Sample.buttonConfig
             Sample.has (Button.props (Sample.mountedButton Sample.flagProps)))
      (Sample.mountedButton Sample.flagProps)
    = Sample.mountedButton Sample.flagProps.
Proof.
  assert (inSync Sample.buttonConfig Sample.has
            (Sample.mountedButton Sample.flagProps)) as Hsync
    by (split; reflexivity).
  split; [exact Hsync|].
  destruct (same_props_reinject_same_rules Sample.buttonStyle Sample.buttonConfig
              Sample.has Sample.unionClassNames ".0"
              Sample.flagProps (Sample.mountedButton Sample.flagProps))
    as [Hsame _].
  apply Hsame, Hsync.
Defined.

(** ** Placeholder *)

(** X20.  The Placeholder's [disabledStyle] counts only when [_isDisabled]:
    unless [_isDisabled] is set, the style is the table's style with the
    caller's [style] spread over it, whatever [disabledStyle] is; when it
    is set, a property that the caller's [disabledStyle] defines has its
    value in the style. *)
Theorem placeholder_disabled_style_only_when_disabled
    (style : PlaceholderStyle.t) (this : Placeholder.t)
    (disabledStyle : jsval) (k : string) (v : sval) :
  (truthy (prop (Placeholder.props this) "_isDisabled") = false →
   Placeholder.computedStyle style this
   = objectSpread [ PlaceholderStyle.style style;
                    ownProps (prop (Placeholder.props this) "style") ]
   ∧ Placeholder.computedStyle style
       (Placeholder.set_props
          (<["disabledStyle" := disabledStyle]> (Placeholder.props this)) this)
     = Placeholder.computedStyle style this)
  ∧ (truthy (prop (Placeholder.props this) "_isDisabled") = true →
     ownProps (prop (Placeholder.props this) "disabledStyle") !! k = Some v →
     Placeholder.computedStyle style this !! k = Some v).
Proof.
  split.
  - intros Henabled. unfold Placeholder.computedStyle.
    cbn [Placeholder.props Placeholder.set_props].
    rewrite (prop_insert_ne _ "disabledStyle" "_isDisabled") by discriminate.
    rewrite (prop_insert_ne _ "disabledStyle" "style") by discriminate.
    rewrite Henabled. split; reflexivity.
  - intros Hdisabled Hk.
    rewrite computedStyle_layers, objectSpread_lookup.
    unfold Spec.placeholderLayers, Spec.override. rewrite Hdisabled.
    match goal with
    | |- Spec.laterWins ([?a; ?b] ++ [?c; ?d]) ?key = _ =>
        change (Spec.laterWins ([a; b; c] ++ [d]) key = Some v)
    end.
    rewrite laterWins_snoc, Hk. reflexivity.
Qed.

Lemma placeholder_disabled_style_only_when_disabled_witness :
  Placeholder.computedStyle Sample.placeholderStyle
    (Placeholder.set_props
       (<["disabledStyle" := JObj (Sample.one "color" "red")]>
          (Placeholder.props (Placeholder.constructor ∅)))
       (Placeholder.constructor ∅))
  = Placeholder.computedStyle Sample.placeholderStyle (Placeholder.constructor ∅).
Proof.
  destruct (placeholder_disabled_style_only_when_disabled Sample.placeholderStyle
              (Placeholder.constructor ∅) (JObj (Sample.one "color" "red"))
              "color" (SStr "red")) as [Henabled _].
  apply Henabled. reflexivity.
Defined.

(** X21.  A Placeholder keeps nothing but its props: after new props it is
    the instance that the constructor makes of them, and it renders the
    element that such an instance renders, whatever it was before. *)
Theorem placeholder_after_props_is_as_constructed
    (style : PlaceholderStyle.t) (properties : Props) (that : Placeholder.t) :
  Placeholder.receive style properties that
  = (Placeholder.constructor properties,
     Placeholder.render style (Placeholder.constructor properties))
  ∧ log (Placeholder.componentWillReceiveProps properties) that
    = [SetState "childProps"]
  ∧ tag (Placeholder.render style (Placeholder.constructor properties)) = "div"
  ∧ children (Placeholder.render style (Placeholder.constructor properties))
    = prop properties "children".
Proof. repeat split; reflexivity. Qed.

(** ** A touch, and the first render *)

(** X22.  A touch and its release: on a Button that is not disabled, a
    touchStart with one touch point followed by a touchEnd or a touchCancel
    brings two renders, the first in the active block, whatever the flags
    were, and the second not; at the end [active], [focused] and
    [mouseDownOnButton] are down. *)
Theorem touch_and_release
    (style : ButtonStyle.t) (config : ButtonConfig.t)
    (has : Props → string → bool) (unionClassNames : jsval → jsval → jsval)
    (this : Button.t) (down up : TouchEvent) (cancelled : bool) :
  truthy (prop (Button.props this) "disabled") = false →
  length (touches down) = 1%nat →
  ∃ this' effects pressed released,
    Button.run style config has unionClassNames
      [Button.Dom (Button.TouchStart down);
       Button.Dom (if cancelled then Button.TouchCancel up else Button.TouchEnd up)]
      this
    = (this', effects, [pressed; released])
    ∧ Button.branch (Button.seen pressed) = Button.ActiveBranch
    ∧ Button.buttonStyle style (Button.seen pressed)
      = objectSpread
          (baseLayers style this ++ branchLayers style this Button.ActiveBranch)
    ∧ Button.branch (Button.seen released) = Button.PlainBranch
    ∧ (Button.active this' = false
       ∧ Button.focused this' = false
       ∧ Button.mouseDownOnButton this' = false).
Proof.
  intros Henabled Hone. cbn [Button.run].
  unfold Button.step at 1. unfold Button.dispatch. rewrite onTouchStart_run.
  rewrite Henabled, Hone. cbn [negb andb Nat.eqb app existsb
                               Button.schedulesRender orb Button.renderAndCommit].
  assert (Button.branch (Button.set_active true this) = Button.ActiveBranch)
    as Hpressed.
  { unfold Button.branch. cbn. rewrite Henabled. reflexivity. }
  destruct cancelled; unfold Button.step, Button.dispatch;
    [rewrite onTouchCancel_run | rewrite onTouchEnd_run];
    cbn [existsb Button.schedulesRender orb Button.renderAndCommit option_list app];
    (eexists _, _, _, _; split; [reflexivity|]; cbn [Button.seen];
     split; [exact Hpressed|];
     split; [rewrite buttonStyle_branch, Hpressed; reflexivity|];
     split; [unfold Button.branch; cbn; rewrite Henabled; reflexivity|];
     repeat split; reflexivity).
Qed.

Lemma touch_and_release_witness :
  ∃ this' effects pressed released,
    Button.run Sample.buttonStyle Sample.buttonConfig Sample.has
      Sample.unionClassNames
      [Button.Dom (Button.TouchStart Sample.touch);
       Button.Dom (Button.TouchEnd Sample.touch)]
      (Sample.focusedButton ∅)
    = (this', effects, [pressed; released])
    ∧ Button.branch (Button.seen pressed) = Button.ActiveBranch.
Proof.
  destruct (touch_and_release Sample.buttonStyle Sample.buttonConfig Sample.has
              Sample.unionClassNames (Sample.focusedButton ∅) Sample.touch
              Sample.touch false)
    as (this' & effects & pressed & released & Hrun & Hbranch & _);
    [reflexivity | reflexivity |].
  exists this', effects, pressed, released. split; assumption.
Defined.

(** X23.  Mounting makes one call, [injectStyles], and asks for no further
    render; the first render sees [active], [focused] and
    [mouseDownOnButton] down, so it runs the disabled block or the plain
    one. *)
Theorem first_render_is_disabled_or_plain
    (style : ButtonStyle.t) (config : ButtonConfig.t)
    (has : Props → string → bool) (unionClassNames : jsval → jsval → jsval)
    (rootNodeID : string) (properties : Props) :
  let mounted :=
    Button.mount style config has unionClassNames rootNodeID properties in
  (∃ rules, mounted.1.2 = [InjectStyles rules])
  ∧ Button.props (Button.seen mounted.2) = properties
  ∧ Button.branch (Button.seen mounted.2)
    = (if truthy (prop properties "disabled")
       then Button.DisabledBranch else Button.PlainBranch)
  ∧ Button.buttonStyle style (Button.seen mounted.2)
    = objectSpread
        (baseLayers style (Button.seen mounted.2)
         ++ branchLayers style (Button.seen mounted.2)
              (if truthy (prop properties "disabled")
               then Button.DisabledBranch else Button.PlainBranch)).
Proof.
  intros mounted.
  assert (Button.branch (Button.seen mounted.2)
          = if truthy (prop properties "disabled")
            then Button.DisabledBranch else Button.PlainBranch) as Hbranch.
  { subst mounted. unfold Button.branch. cbn.
    destruct (truthy (prop properties "disabled")); reflexivity. }
  split; [eexists; reflexivity|]. split; [reflexivity|].
  split; [exact Hbranch|].
  rewrite buttonStyle_branch, Hbranch. reflexivity.
Qed.
